(** * airtable-export: a shallow embedding of [src/main.ts]

    The script reads the most recent modification time of an Airtable
    table, and when the last edit is old enough it uploads every record
    of the table, as pretty-printed JSON, to a file of a GitHub
    repository.

    The embedding follows the source function by function.  JavaScript
    values that the script handles are modelled as follows.

    - A string is a [string]: the bytes of its UTF-8 encoding.  With
      this reading [Buffer.from(text)] is the identity on the
      representation.
    - A JSON value is a [json]; an object is an association list,
      because [JSON.stringify] prints the members in insertion order.
      Numbers inside JSON data are integers (below 2^53 in magnitude,
      where a double holds them exactly and prints them in decimal).
    - [undefined] is [None] in an [option json].
    - A [Date] is [ValidDate t] (t in milliseconds since the epoch) or
      [InvalidDate]; a [number] used in time arithmetic is an exact
      rational or [NaN] (doubles are idealised as rationals).
    - [process.env] is a [gmap string string].
    - An [async] function is a [prog]: a tree of console output, clock
      reads and awaited requests, run against a world that answers each
      request with a value or a rejection. *)

From Stdlib Require Import Ascii String QArith.
From stdpp Require Import gmap strings list pretty.

Local Open Scope Z_scope.
Set Warnings "-register-all".

(** ** JSON values *)

Inductive json : Type :=
| JNull
| JBool (b : bool)
| JNum (n : Z)
| JStr (s : string)
| JArr (elems : list json)
| JObj (members : list (string * json)).

(** [obj[key]] on a plain object: the first member of that name, or
    [undefined].  (Names inherited from [Object.prototype] are outside
    the model.) *)
Fixpoint own_property (members : list (string * json)) (key : string) : option json :=
  match members with
  | [] => None
  | (k, v) :: rest => if String.eqb k key then Some v else own_property rest key
  end.

(** ** [JSON.stringify] *)

Definition hex_digit (n : N) : ascii :=
  default "0"%char (String.get (N.to_nat n) "0123456789abcdef").

Definition dquote : string := String (ascii_of_N 34) "".

(** One code unit of QuoteJSONString (ECMA-262, 25.5.2.3). *)
Definition quote_char (c : ascii) : string :=
  let n := N_of_ascii c in
  if (n =? 8)%N then "\b"
  else if (n =? 9)%N then "\t"
  else if (n =? 10)%N then "\n"
  else if (n =? 12)%N then "\f"
  else if (n =? 13)%N then "\r"
  else if (n =? 34)%N then String "\"%char dquote
  else if (n =? 92)%N then "\\"
  else if (n <? 32)%N then
    "\u00" +:+ String (hex_digit (n / 16)) (String (hex_digit (n mod 16)) "")
  else String c "".

Fixpoint quote_chars (s : string) : string :=
  match s with
  | EmptyString => ""
  | String c rest => quote_char c +:+ quote_chars rest
  end.

Definition QuoteJSONString (s : string) : string :=
  dquote +:+ quote_chars s +:+ dquote.

Definition newline : string := String (ascii_of_N 10) "".

Fixpoint join (sep : string) (parts : list string) : string :=
  match parts with
  | [] => ""
  | [p] => p
  | p :: rest => p +:+ sep +:+ join sep rest
  end.

(** SerializeJSONArray / SerializeJSONObject once the parts are printed:
    [stepback] is the indentation of the enclosing level. *)
Definition wrap_json (opening closing gap stepback : string) (parts : list string) : string :=
  match parts with
  | [] => opening +:+ closing
  | _ =>
    let indent := stepback +:+ gap in
    if String.eqb gap "" then opening +:+ join "," parts +:+ closing
    else opening +:+ newline +:+ indent
         +:+ join ("," +:+ newline +:+ indent) parts
         +:+ newline +:+ stepback +:+ closing
  end.

(** SerializeJSONProperty for a value that is plain JSON data.  A
    number is an integer printed in decimal, as [JSON.stringify] prints
    the integers below 10^21; fractions have no model value. *)
Fixpoint SerializeJSONProperty (gap indent : string) (v : json) : string :=
  match v with
  | JNull => "null"
  | JBool true => "true"
  | JBool false => "false"
  | JNum n => pretty n
  | JStr s => QuoteJSONString s
  | JArr elems =>
    wrap_json "[" "]" gap indent
      ((fix each (l : list json) : list string :=
          match l with
          | [] => []
          | x :: rest => SerializeJSONProperty gap (indent +:+ gap) x :: each rest
          end) elems)
  | JObj members =>
    wrap_json "{" "}" gap indent
      ((fix each (l : list (string * json)) : list string :=
          match l with
          | [] => []
          | (k, x) :: rest =>
            (QuoteJSONString k +:+ ":" +:+ (if String.eqb gap "" then "" else " ")
             +:+ SerializeJSONProperty gap (indent +:+ gap) x) :: each rest
          end) members)
  end.

Fixpoint spaces (n : nat) : string :=
  match n with
  | O => ""
  | S m => String " "%char (spaces m)
  end.

(** [JSON.stringify(value, null, space)] with a numeric [space]: the gap
    is [min(10, space)] blanks. *)
Definition JSON_stringify (value : json) (space : nat) : string :=
  SerializeJSONProperty (spaces (Nat.min 10 space)) "" value.

(** ** Base64 (RFC 4648, the alphabet of [Buffer.toString("base64")]) *)

Definition base64_alphabet : string :=
  "ABCDEFGHIJKLMNOPQRSTUVWXYZabcdefghijklmnopqrstuvwxyz0123456789+/".

Definition b64_char (i : N) : ascii :=
  default "A"%char (String.get (N.to_nat i) base64_alphabet).

Definition b64_index (c : ascii) : option N :=
  let n := N_of_ascii c in
  if (65 <=? n)%N && (n <=? 90)%N then Some (n - 65)%N
  else if (97 <=? n)%N && (n <=? 122)%N then Some (n - 71)%N
  else if (48 <=? n)%N && (n <=? 57)%N then Some (n + 4)%N
  else if (n =? 43)%N then Some 62%N
  else if (n =? 47)%N then Some 63%N
  else None.

Definition pad : ascii := "="%char.

Fixpoint base64_encode (bytes : string) : string :=
  match bytes with
  | EmptyString => ""
  | String a EmptyString =>
    let x := N_of_ascii a in
    String (b64_char (x / 4)) (String (b64_char (x mod 4 * 16))
      (String pad (String pad "")))
  | String a (String b EmptyString) =>
    let x := N_of_ascii a in
    let y := N_of_ascii b in
    String (b64_char (x / 4)) (String (b64_char (x mod 4 * 16 + y / 16))
      (String (b64_char (y mod 16 * 4)) (String pad "")))
  | String a (String b (String c rest)) =>
    let x := N_of_ascii a in
    let y := N_of_ascii b in
    let z := N_of_ascii c in
    String (b64_char (x / 4)) (String (b64_char (x mod 4 * 16 + y / 16))
      (String (b64_char (y mod 16 * 4 + z / 64)) (String (b64_char (z mod 64))
        (base64_encode rest))))
  end.

Definition is_pad (c : ascii) : bool := Ascii.eqb c pad.

Definition is_empty (s : string) : bool :=
  match s with EmptyString => true | _ => false end.

(** A strict decoder: groups of four characters, padding only in the
    last group. *)
Fixpoint base64_decode (text : string) : option string :=
  match text with
  | EmptyString => Some ""
  | String c1 (String c2 (String c3 (String c4 rest))) =>
    match b64_index c1, b64_index c2 with
    | Some i1, Some i2 =>
      let b1 := ascii_of_N (i1 * 4 + i2 / 16) in
      match b64_index c3 with
      | Some i3 =>
        let b2 := ascii_of_N (i2 mod 16 * 16 + i3 / 4) in
        match b64_index c4 with
        | Some i4 =>
          let b3 := ascii_of_N (i3 mod 4 * 64 + i4) in
          match base64_decode rest with
          | Some tail => Some (String b1 (String b2 (String b3 tail)))
          | None => None
          end
        | None =>
          if is_pad c4 && is_empty rest then Some (String b1 (String b2 ""))
          else None
        end
      | None =>
        if is_pad c3 && is_pad c4 && is_empty rest then Some (String b1 "")
        else None
      end
    | _, _ => None
    end
  | _ => None
  end.

(** ** Utils (main.ts, lines 108-112) *)

(** [Buffer.from(data)] for a string: its UTF-8 bytes.  A [string] here
    is already the UTF-8 bytes of a text, so only well-formed texts are
    represented: a lone surrogate, which [Buffer.from] replaces by
    U+FFFD, has no model value. *)
Definition Buffer_from (data : string) : string := data.

(** Convert data to a JSON string *)
Definition toJSON (data : json) : string := JSON_stringify data 2.

(** Convert data to a Base64 encoded string *)
Definition toBase64 (data : string) : string := base64_encode (Buffer_from data).

(** ** Numbers and dates *)

Inductive number : Type :=
| Fin (q : Q)
| PosInf
| NegInf
| NaN.

(** The relational operators [<] and [>=] on numbers: every comparison
    with [NaN] is false. *)
Definition num_lt (a b : number) : bool :=
  match a, b with
  | NaN, _ | _, NaN => false
  | Fin x, Fin y => negb (Qle_bool y x)
  | Fin _, PosInf | NegInf, Fin _ | NegInf, PosInf => true
  | _, _ => false
  end.

Definition num_ge (a b : number) : bool :=
  match a, b with
  | NaN, _ | _, NaN => false
  | Fin x, Fin y => Qle_bool y x
  | PosInf, _ | _, NegInf => true
  | _, _ => false
  end.

Inductive Date : Type :=
| ValidDate (ms : Z)
| InvalidDate.

Definition getTime (d : Date) : number :=
  match d with
  | ValidDate ms => Fin (inject_Z ms)
  | InvalidDate => NaN
  end.

(** [(now.getTime() - lastUpdate.getTime()) / 1000], in exact rationals.
    The source computes in doubles: the two agree in every comparison
    with a cool-down that is a whole number of seconds (up to 10^12),
    the default 300 among them; for other cool-downs the rounding of
    the quotient can decide a comparison at the boundary. *)
Definition seconds_between (now lastUpdate : Date) : number :=
  match getTime now, getTime lastUpdate with
  | Fin a, Fin b => Fin ((a - b) / inject_Z 1000)
  | _, _ => NaN
  end.

(** TimeClip: a time value is within 8.64e15 ms of the epoch. *)
Definition TimeClip (ms : Z) : Date :=
  if Z.abs ms <=? 8640000000000000 then ValidDate ms else InvalidDate.

(** ToString of JSON data, as [new Date(value)] applies it to an array
    or an object. *)
Fixpoint ToString (v : json) : string :=
  match v with
  | JNull => "null"
  | JBool true => "true"
  | JBool false => "false"
  | JNum n => pretty n
  | JStr s => s
  | JArr elems =>
    join ","
      ((fix each (l : list json) : list string :=
          match l with
          | [] => []
          | JNull :: rest => "" :: each rest
          | x :: rest => ToString x :: each rest
          end) elems)
  | JObj _ => "[object Object]"
  end.

(** ** Configuration records *)

Module AirtableConfig.
Record t : Type := {
  apiKey : string;
  databaseId : string;
  tableName : string;
  lastModifiedField : string;
}.
End AirtableConfig.

Module GitHubConfig.
Record t : Type := {
  apiKey : string;
  user : string;
  repo : string;
  path : string;
  message : string;
}.
End GitHubConfig.

(** ** The two remote services *)

(** [new Airtable({ apiKey }).base(databaseId)(tableName)] *)
Record Table : Type := {
  table_apiKey : string;
  table_base : string;
  table_name : string;
}.

(** An Airtable record: the script reads [fields] only. *)
Record AirtableRecord : Type := {
  id : string;
  createdTime : string;
  fields : list (string * json);
}.

Inductive direction : Type := asc | desc.

(** The argument of [table.select]. *)
Record SelectParams : Type := {
  select_fields : list string;
  select_sort : list (string * direction);
  select_maxRecords : nat;
}.

(** The optional second argument of [axios.get]. *)
Record AxiosRequestConfig : Type := {
  headers : list (string * string);
}.

(** The response of [axios.get]; the script reads [data] only. *)
Record AxiosResponse : Type := {
  status : Z;
  data : json;
}.

(** The argument of [octokit.repos.createOrUpdateFileContents]. *)
Module FileContents.
Record t : Type := {
  owner : string;
  repo : string;
  path : string;
  message : string;
  sha : option json;
  content : string;
}.
End FileContents.

(** The network calls of the script, indexed by what they resolve to. *)
Inductive request : Type -> Type :=
| SelectAll (table : Table) (params : option SelectParams) : request (list AirtableRecord)
| AxiosGet (url : string) (config : option AxiosRequestConfig) : request AxiosResponse
| CreateOrUpdateFileContents (auth : string) (params : FileContents.t) : request unit.

(** ** Asynchronous programs *)

(** A thrown value: the script throws a string; the runtime and the
    client libraries throw error objects. *)
Inductive thrown : Type :=
| ThrownString (text : string)
| ThrownError (name : string) (detail : string).

Inductive settled (A : Type) : Type :=
| Fulfilled (value : A)
| Rejected (reason : thrown).
Arguments Fulfilled {A} value.
Arguments Rejected {A} reason.

Inductive level : Type := info | warn | error.

Inductive printed : Type :=
| Text (s : string)
| Caught (e : thrown).

Inductive prog (A : Type) : Type :=
| Ret (a : A)
| Throw (e : thrown)
| Console (l : level) (what : printed) (k : prog A)
| NewDate (k : Date -> prog A)
| Settle {X : Type} (r : request X) (k : settled X -> prog A).
Arguments Ret {A} a.
Arguments Throw {A} e.
Arguments Console {A} l what k.
Arguments NewDate {A} k.
Arguments Settle {A X} r k.

Fixpoint bind {A B : Type} (p : prog A) (f : A -> prog B) : prog B :=
  match p with
  | Ret a => f a
  | Throw e => Throw e
  | Console l what k => Console l what (bind k f)
  | NewDate k => NewDate (fun d => bind (k d) f)
  | Settle r k => Settle r (fun s => bind (k s) f)
  end.

(** [promise.catch(handler)] *)
Fixpoint catch {A : Type} (p : prog A) (handler : thrown -> prog A) : prog A :=
  match p with
  | Ret a => Ret a
  | Throw e => handler e
  | Console l what k => Console l what (catch k handler)
  | NewDate k => NewDate (fun d => catch (k d) handler)
  | Settle r k => Settle r (fun s => catch (k s) handler)
  end.

(** [await promise]: the value, or the rejection rethrown. *)
Definition await {X : Type} (r : request X) : prog X :=
  Settle r (fun s => match s with
                     | Fulfilled x => Ret x
                     | Rejected e => Throw e
                     end).

Definition console (l : level) (what : printed) : prog unit :=
  Console l what (Ret tt).

Definition new_Date_now : prog Date := NewDate Ret.

Declare Scope prog_scope.
Delimit Scope prog_scope with prog.
Bind Scope prog_scope with prog.
Notation "x <- p ;; q" := (bind p (fun x => q))
  (at level 100, p at next level, right associativity) : prog_scope.
Notation "p ;; q" := (bind p (fun _ => q))
  (at level 100, right associativity) : prog_scope.

(** [value[key]] for JSON data and a key that no prototype defines:
    reading a property of [null] throws. *)
Definition get_member (value : json) (key : string) : prog (option json) :=
  match value with
  | JNull =>
    Throw (ThrownError "TypeError"
             ("Cannot read properties of null (reading '" +:+ key +:+ "')"))
  | JObj members => Ret (own_property members key)
  | _ => Ret None
  end.

(** ** The script *)

Section Script.

(** Two built-ins are left abstract: [Date.parse] ([None] stands for
    [NaN]) and the conversion of a number to a string in a template
    literal. *)
Variable Date_parse : string -> option Z.
Variable Number_toString : number -> string.

Local Open Scope prog_scope.

Definition parsed_date (text : string) : Date :=
  match Date_parse text with
  | Some ms => TimeClip ms
  | None => InvalidDate
  end.

(** [new Date(value)] for [undefined] or JSON data. *)
Definition new_Date (value : option json) : Date :=
  match value with
  | None => InvalidDate
  | Some JNull => ValidDate 0
  | Some (JBool true) => ValidDate 1
  | Some (JBool false) => ValidDate 0
  | Some (JNum n) => TimeClip n
  | Some (JStr text) => parsed_date text
  | Some (JArr elems) => parsed_date (ToString (JArr elems))
  | Some (JObj members) => parsed_date (ToString (JObj members))
  end.

(** main.ts, lines 20-24: the argument of the first [table.select]. *)
Definition latest_query (lastModifiedField : string) : SelectParams := {|
  select_fields := [lastModifiedField];
  select_sort := [(lastModifiedField, desc)];
  select_maxRecords := 1;
|}.

(** main.ts, lines 16-33.  [None] is [null]. *)
Definition getLastAirtableModificationTime
    (table : Table) (lastModifiedField : string) : prog (option Date) :=
  matches <- await (SelectAll table (Some (latest_query lastModifiedField)));;
  match head matches with
  | Some mostRecentRecord =>
    let stamp := own_property (fields mostRecentRecord) lastModifiedField in
    Ret (Some (new_Date stamp))
  | None => Ret None
  end.

(** main.ts, line 48: the address of the target file. *)
Definition contents_url (config : GitHubConfig.t) : string :=
  "https://api.github.com/repos/" +:+ GitHubConfig.user config +:+ "/"
  +:+ GitHubConfig.repo config +:+ "/contents/" +:+ GitHubConfig.path config.

(** main.ts, lines 47-51. *)
Definition getTargetFileSHA (config : GitHubConfig.t) : prog (option json) :=
  let url := contents_url config in
  response <- await (AxiosGet url None);;
  get_member (data response) "sha".

(** main.ts, lines 62-65: the table the script works on.  Building the
    handle makes no request.  The constructor of the client throws on
    an empty key, before any request; this is not modelled, so the
    model of the export stands for the configurations that the client
    accepts (a non-empty key). *)
Definition airtable_table (airtableConfig : AirtableConfig.t) : Table := {|
  table_apiKey := AirtableConfig.apiKey airtableConfig;
  table_base := AirtableConfig.databaseId airtableConfig;
  table_name := AirtableConfig.tableName airtableConfig;
|}.

(** main.ts, line 86: [toBase64(toJSON(matches.map((m) => m.fields)))] *)
Definition uploadData (matches : list AirtableRecord) : string :=
  toBase64 (toJSON (JArr (map (fun m => JObj (fields m)) matches))).

(** main.ts, lines 89-96: the argument of the write. *)
Definition write_params (githubConfig : GitHubConfig.t)
    (currentSHA : option json) (uploadData : string) : FileContents.t := {|
  FileContents.owner := GitHubConfig.user githubConfig;
  FileContents.repo := GitHubConfig.repo githubConfig;
  FileContents.path := GitHubConfig.path githubConfig;
  FileContents.message := GitHubConfig.message githubConfig;
  FileContents.sha := currentSHA;
  FileContents.content := uploadData;
|}.

(** main.ts, lines 57-102.  The third argument is [None] when the
    caller leaves it out. *)
Definition exportAirtableDataToGitHub
    (airtableConfig : AirtableConfig.t) (githubConfig : GitHubConfig.t)
    (timeTreshold : option number) : prog unit :=
  let timeTreshold := default (Fin (5 * 60)) timeTreshold in
  let table := airtable_table airtableConfig in
  lastUpdate <- getLastAirtableModificationTime table
                  (AirtableConfig.lastModifiedField airtableConfig);;
  match lastUpdate with
  | Some lastUpdate =>
    now <- new_Date_now;;
    let timeSinceLastUpdate := seconds_between now lastUpdate in
    if num_lt timeSinceLastUpdate timeTreshold then
      console info
        (Text ("Last update below update treshold ("
               +:+ Number_toString timeTreshold +:+ " seconds), skipping update."))
    else
      console info
        (Text "Last update time over update treshold, will try to export data.");;
      matches <- await (SelectAll table None);;
      currentSHA <- getTargetFileSHA githubConfig;;
      let uploadData := uploadData matches in
      await (CreateOrUpdateFileContents (GitHubConfig.apiKey githubConfig)
               (write_params githubConfig currentSHA uploadData))
  | None =>
    console warn
      (Text "Unable to determine last table update time, no changes done.")
  end.

(** main.ts, lines 114-120. *)
Definition envOrDie (env : gmap string string) (key : string) : prog string :=
  match env !! key with
  | None => Throw (ThrownString ("Please define the " +:+ key +:+ " env variable."))
  | Some val => Ret val
  end.

(** main.ts, lines 126-141. *)
Definition main (env : gmap string string) : prog unit :=
  airtableKey <- envOrDie env "AIRTABLE_API_KEY";;
  let airtableConfig := {|
    AirtableConfig.apiKey := airtableKey;
    AirtableConfig.databaseId := "apppZX1QC3fl1RTBM";
    AirtableConfig.tableName := "Web Export Test";
    AirtableConfig.lastModifiedField := "Last Update";
  |} in
  githubKey <- envOrDie env "GITHUB_API_TOKEN";;
  let githubConfig := {|
    GitHubConfig.apiKey := githubKey;
    GitHubConfig.user := "zoul";
    GitHubConfig.repo := "airtable-export";
    GitHubConfig.path := "data.json";
    GitHubConfig.message := "Update data";
  |} in
  exportAirtableDataToGitHub airtableConfig githubConfig None.

(** main.ts, line 143: [main().catch((e) => console.error(e))] *)
Definition entry_point (env : gmap string string) : prog unit :=
  catch (main env) (fun e => console error (Caught e)).

End Script.

(** ** Running a program against a world *)

(** What a run leaves behind, in order. *)
Inductive event : Type :=
| Printed (l : level) (what : printed)
| ClockRead (now : Date)
| Called {X : Type} (r : request X).

Section Run.

(** A world has a state, answers each request (and moves on), and has
    a clock that [new Date()] reads. *)
Context {W : Type}.
Variable respond : forall X : Type, request X -> W -> settled X * W.
Variable clock : W -> Z * W.

Fixpoint run {A : Type} (p : prog A) (w : W) : list event * settled A * W :=
  match p with
  | Ret a => ([], Fulfilled a, w)
  | Throw e => ([], Rejected e, w)
  | Console l what k =>
    let '(trace, outcome, w') := run k w in
    (Printed l what :: trace, outcome, w')
  | NewDate k =>
    let '(ms, w1) := clock w in
    let '(trace, outcome, w') := run (k (ValidDate ms)) w1 in
    (ClockRead (ValidDate ms) :: trace, outcome, w')
  | Settle r k =>
    let '(answer, w1) := respond _ r w in
    let '(trace, outcome, w') := run (k answer) w1 in
    (Called r :: trace, outcome, w')
  end.

End Run.

(** The network calls of a trace, and the three kinds the export makes. *)
Definition is_call (e : event) : bool :=
  match e with Called _ => true | _ => false end.

Definition is_fetch_all (e : event) : bool :=
  match e with Called (SelectAll _ None) => true | _ => false end.

Definition is_hash_read (e : event) : bool :=
  match e with Called (AxiosGet _ _) => true | _ => false end.

Definition is_write (e : event) : bool :=
  match e with Called (CreateOrUpdateFileContents _ _) => true | _ => false end.

Definition count (what : event -> bool) (trace : list event) : nat :=
  length (filter (fun e => what e = true) trace).

(** The contents that the writes of a trace carry. *)
Definition uploaded (e : event) : option string :=
  match e with
  | Called (CreateOrUpdateFileContents _ params) => Some (FileContents.content params)
  | _ => None
  end.

Definition uploads (trace : list event) : list string := omap uploaded trace.

(** ** Sample worlds and inputs *)

(** A scripted world: one fixed answer per kind of request and a fixed
    clock; the state counts the requests answered so far. *)
Record scenario : Type := {
  latest_answer : settled (list AirtableRecord);
  all_answer : settled (list AirtableRecord);
  get_answer : settled AxiosResponse;
  put_answer : settled unit;
  time_now : Z;
}.

Definition scripted_respond (s : scenario) (X : Type) (r : request X) (served : nat)
    : settled X * nat :=
  match r in request X return settled X * nat with
  | SelectAll _ (Some _) => (latest_answer s, S served)
  | SelectAll _ None => (all_answer s, S served)
  | AxiosGet _ _ => (get_answer s, S served)
  | CreateOrUpdateFileContents _ _ => (put_answer s, S served)
  end.

Definition scripted_clock (s : scenario) (served : nat) : Z * nat :=
  (time_now s, served).

(** Stand-ins for the two abstract built-ins: one ISO time stamp is
    understood, and integral numbers print in decimal. *)
Definition sample_Date_parse (text : string) : option Z :=
  if String.eqb text "2020-05-01T10:00:00.000Z" then Some 1588327200000 else None.

Definition sample_Number_toString (n : number) : string :=
  match n with
  | Fin q => pretty (Qnum q / Zpos (Qden q))
  | PosInf => "Infinity"
  | NegInf => "-Infinity"
  | NaN => "NaN"
  end.

Definition sample_airtable : AirtableConfig.t := {|
  AirtableConfig.apiKey := "keyAIRTABLE";
  AirtableConfig.databaseId := "apppZX1QC3fl1RTBM";
  AirtableConfig.tableName := "Web Export Test";
  AirtableConfig.lastModifiedField := "Last Update";
|}.

Definition sample_github : GitHubConfig.t := {|
  GitHubConfig.apiKey := "ghp_TOKEN";
  GitHubConfig.user := "zoul";
  GitHubConfig.repo := "airtable-export";
  GitHubConfig.path := "data.json";
  GitHubConfig.message := "Update data";
|}.

Definition record_A : AirtableRecord := {|
  id := "recA";
  createdTime := "2020-04-30T08:00:00.000Z";
  fields := [("A", JNum 1)];
|}.

Definition record_B : AirtableRecord := {|
  id := "recB";
  createdTime := "2020-04-30T09:00:00.000Z";
  fields := [("B", JNum 2)];
|}.

Definition stamped (text : string) : AirtableRecord := {|
  id := "recLatest";
  createdTime := "2020-04-30T08:00:00.000Z";
  fields := [("Last Update", JStr text)];
|}.

Definition sha_response : AxiosResponse := {|
  status := 200;
  data := JObj [("name", JStr "data.json"); ("sha", JStr "3d21ec53a331a6f037a91c368710b99387d012c1")];
|}.

Definition not_found : thrown :=
  ThrownError "AxiosError" "Request failed with status code 404".

Definition timed_out : thrown := ThrownError "AirtableError" "ETIMEDOUT".

(** The table was last edited at 2020-05-01T10:00:00Z; [seconds] later
    the script runs and every request succeeds. *)
Definition edited_ago (seconds : Z) : scenario := {|
  latest_answer := Fulfilled [stamped "2020-05-01T10:00:00.000Z"];
  all_answer := Fulfilled [record_A; record_B];
  get_answer := Fulfilled sha_response;
  put_answer := Fulfilled tt;
  time_now := 1588327200000 + 1000 * seconds;
|}.

(** As [edited_ago 301], but the fetch of all records fails. *)
Definition fetch_fails : scenario := {|
  latest_answer := Fulfilled [stamped "2020-05-01T10:00:00.000Z"];
  all_answer := Rejected timed_out;
  get_answer := Fulfilled sha_response;
  put_answer := Fulfilled tt;
  time_now := 1588327200000 + 301000;
|}.

(** As [edited_ago 301], but the target file does not exist. *)
Definition file_missing : scenario := {|
  latest_answer := Fulfilled [stamped "2020-05-01T10:00:00.000Z"];
  all_answer := Fulfilled [record_A; record_B];
  get_answer := Rejected not_found;
  put_answer := Fulfilled tt;
  time_now := 1588327200000 + 301000;
|}.

(** The table has no record. *)
Definition empty_table : scenario := {|
  latest_answer := Fulfilled [];
  all_answer := Fulfilled [];
  get_answer := Fulfilled sha_response;
  put_answer := Fulfilled tt;
  time_now := 1588327200000;
|}.

(** The time stamp of the latest record is not a date. *)
Definition garbled_stamp : scenario := {|
  latest_answer := Fulfilled [stamped "yesterday-ish"];
  all_answer := Fulfilled [record_A; record_B];
  get_answer := Fulfilled sha_response;
  put_answer := Fulfilled tt;
  time_now := 1588327200000;
|}.

(** Two environments: one without the GitHub token, and one whose
    GitHub token is the empty string. *)
Definition no_token_env : gmap string string :=
  <["AIRTABLE_API_KEY" := "keyAIRTABLE"]> ∅.


Definition other_token_github : GitHubConfig.t := {|
  GitHubConfig.apiKey := "ghp_ANOTHER";
  GitHubConfig.user := "zoul";
  GitHubConfig.repo := "airtable-export";
  GitHubConfig.path := "data.json";
  GitHubConfig.message := "Update data";
|}.

Definition sample_run (s : scenario) (p : prog unit) : list event * settled unit * nat :=
  run (scripted_respond s) (scripted_clock s) p 0%nat.

Definition sample_export (threshold : option number) : prog unit :=
  exportAirtableDataToGitHub sample_Date_parse sample_Number_toString
    sample_airtable sample_github threshold.

Definition sample_text : string :=
  "[" +:+ newline +:+
  "  {" +:+ newline +:+
  "    " +:+ dquote +:+ "A" +:+ dquote +:+ ": 1" +:+ newline +:+
  "  }," +:+ newline +:+
  "  {" +:+ newline +:+
  "    " +:+ dquote +:+ "B" +:+ dquote +:+ ": 2" +:+ newline +:+
  "  }" +:+ newline +:+
  "]".

(** ** Reading a trace *)




Definition write_of (e : event) : option (string * FileContents.t) :=
  match e with
  | Called (CreateOrUpdateFileContents auth params) => Some (auth, params)
  | _ => None
  end.

Definition writes (trace : list event) : list (string * FileContents.t) :=
  omap write_of trace.

Definition get_of (e : event) : option (string * option AxiosRequestConfig) :=
  match e with
  | Called (AxiosGet url config) => Some (url, config)
  | _ => None
  end.

Definition gets (trace : list event) : list (string * option AxiosRequestConfig) :=
  omap get_of trace.

(** The requests of a trace that go to GitHub, in order. *)
Inductive github_call : Type :=
| GitHubRead (url : string) (config : option AxiosRequestConfig)
| GitHubWrite (auth : string) (params : FileContents.t).

Definition github_of (e : event) : option github_call :=
  match e with
  | Called (AxiosGet url config) => Some (GitHubRead url config)
  | Called (CreateOrUpdateFileContents auth params) => Some (GitHubWrite auth params)
  | _ => None
  end.

Definition github_calls (trace : list event) : list github_call :=
  omap github_of trace.

Definition line_of (e : event) : option (level * printed) :=
  match e with
  | Printed l what => Some (l, what)
  | _ => None
  end.

Definition printed_lines (trace : list event) : list (level * printed) :=
  omap line_of trace.

(** ** More sample worlds *)

(** Airtable cannot be reached. *)
Definition airtable_down : scenario := {|
  latest_answer := Rejected timed_out;
  all_answer := Rejected timed_out;
  get_answer := Fulfilled sha_response;
  put_answer := Fulfilled tt;
  time_now := 1588327200000 + 301000;
|}.

(** The latest record has no value in the time stamp field. *)
Definition blank_record : AirtableRecord := {|
  id := "recBlank";
  createdTime := "2020-04-30T08:00:00.000Z";
  fields := [];
|}.

Definition stamp_missing : scenario := {|
  latest_answer := Fulfilled [blank_record];
  all_answer := Fulfilled [record_A; record_B];
  get_answer := Fulfilled sha_response;
  put_answer := Fulfilled tt;
  time_now := 1588327200000;
|}.

(** The target path is a directory: the body is a listing, an array. *)
Definition listing_response : AxiosResponse := {|
  status := 200;
  data := JArr [JObj [("name", JStr "data.json"); ("sha", JStr "3d21ec53")]];
|}.

Definition path_is_directory : scenario := {|
  latest_answer := Fulfilled [stamped "2020-05-01T10:00:00.000Z"];
  all_answer := Fulfilled [record_A; record_B];
  get_answer := Fulfilled listing_response;
  put_answer := Rejected (ThrownError "HttpError" "Invalid request");
  time_now := 1588327200000 + 301000;
|}.

(** The body of the hash read is [null]. *)
Definition null_body : scenario := {|
  latest_answer := Fulfilled [stamped "2020-05-01T10:00:00.000Z"];
  all_answer := Fulfilled [record_A; record_B];
  get_answer := Fulfilled {| status := 200; data := JNull |};
  put_answer := Fulfilled tt;
  time_now := 1588327200000 + 301000;
|}.

(** An environment with both credentials and one more variable. *)
Definition full_env : gmap string string :=
  <["AIRTABLE_API_KEY" := "keyAIRTABLE"]> (<["GITHUB_API_TOKEN" := "ghp_TOKEN"]> ∅).

Definition noisy_env : gmap string string := <["HOME" := "/root"]> full_env.

(** ** Reading base64 text *)

Definition in_base64_alphabet (c : ascii) : bool :=
  match b64_index c with
  | Some _ => true
  | None => is_pad c
  end.

Fixpoint all_chars (ok : ascii -> bool) (s : string) : bool :=
  match s with
  | EmptyString => true
  | String c rest => ok c && all_chars ok rest
  end.

(** A character that is not a control character (code 32 or more). *)
Definition not_control (c : ascii) : bool := (32 <=? N_of_ascii c)%N.

(** Comparisons of rationals with denominators written out. *)
Ltac gate_arith :=
  unfold Qlt, Qle, Qdiv, Qmult, Qinv, Qminus, Qplus, Qopp, inject_Z; cbn; nia.

(** Goals on [/] and [mod] by constants, through Euclidean division. *)
Ltac divmod := intros; zify; Z.to_euclidean_division_equations; lia.

(** * Properties *)

(** ** The serialisers on small inputs *)

Example stringify_sample :
  JSON_stringify (JArr [JObj [("A", JNum 1)]; JObj [("B", JNum 2)]]) 2 = sample_text.
Proof. vm_compute. reflexivity. Qed.

Example stringify_compact :
  JSON_stringify (JArr [JObj [("A", JNum 1)]; JArr []; JStr "x"; JNull; JBool true]) 0
  = "[{" +:+ dquote +:+ "A" +:+ dquote +:+ ":1},[]," +:+ dquote +:+ "x" +:+ dquote
    +:+ ",null,true]".
Proof. vm_compute. reflexivity. Qed.

Example base64_samples :
  base64_encode "Man is" = "TWFuIGlz" /\ base64_encode "light w" = "bGlnaHQgdw=="
  /\ base64_decode "bGlnaHQgd28=" = Some "light wo"
  /\ base64_decode "bGlnaHQ" = None.
Proof. vm_compute. auto. Qed.

(** ** Base64 decoding undoes encoding *)

Lemma b64_index_char (i : N) : (i < 64)%N -> b64_index (b64_char i) = Some i.
Proof.
  intros Hi. destruct i as [|p]; [reflexivity|].
  do 6 (destruct p as [p|p|]; try reflexivity); exfalso; lia.
Qed.

Lemma N_of_ascii_bound (c : ascii) : (N_of_ascii c < 256)%N.
Proof. destruct c as [[] [] [] [] [] [] [] []]; vm_compute; reflexivity. Qed.

Lemma sextet_bounds (x y : N) :
  (x < 256)%N -> (y < 256)%N ->
  (x / 4 < 64 /\ x mod 4 * 16 + y / 16 < 64 /\ y mod 16 * 4 + x / 64 < 64
   /\ x mod 64 < 64 /\ x mod 4 * 16 < 64 /\ y mod 16 * 4 < 64)%N.
Proof. divmod. Qed.

Lemma octet_1 (x y : N) :
  (y < 256)%N -> (x / 4 * 4 + (x mod 4 * 16 + y / 16) / 16 = x)%N.
Proof. divmod. Qed.

Lemma octet_2 (x y z : N) :
  (y < 256)%N -> (z < 256)%N ->
  ((x mod 4 * 16 + y / 16) mod 16 * 16 + (y mod 16 * 4 + z / 64) / 4 = y)%N.
Proof. divmod. Qed.

Lemma octet_3 (y z : N) :
  (z < 256)%N -> ((y mod 16 * 4 + z / 64) mod 4 * 64 + z mod 64 = z)%N.
Proof. divmod. Qed.

Lemma octet_last_1 (x : N) : (x / 4 * 4 + (x mod 4 * 16) / 16 = x)%N.
Proof. divmod. Qed.

Lemma octet_last_2 (x y : N) :
  (y < 256)%N -> ((x mod 4 * 16 + y / 16) mod 16 * 16 + (y mod 16 * 4) / 4 = y)%N.
Proof. divmod. Qed.

Lemma base64_decode_encode_bounded (n : nat) :
  forall bytes : string, (String.length bytes <= n)%nat ->
  base64_decode (base64_encode bytes) = Some bytes.
Proof.
  induction n as [|n IH]; intros bytes Hlen.
  - destruct bytes; [reflexivity | simpl in Hlen; lia].
  - destruct bytes as [|a [|b [|c rest]]]; [reflexivity | | | ].
    + pose proof (N_of_ascii_bound a) as Ha.
      destruct (sextet_bounds _ _ Ha Ha) as (H1 & _ & _ & _ & H2 & _).
      cbn [base64_encode base64_decode].
      rewrite !b64_index_char by assumption.
      cbn. rewrite octet_last_1, ascii_N_embedding. reflexivity.
    + pose proof (N_of_ascii_bound a) as Ha.
      pose proof (N_of_ascii_bound b) as Hb.
      destruct (sextet_bounds _ _ Ha Hb) as (H1 & H2 & _ & _ & _ & H3).
      cbn [base64_encode base64_decode].
      rewrite !b64_index_char by assumption.
      cbn. rewrite octet_1, octet_last_2, !ascii_N_embedding by assumption.
      reflexivity.
    + pose proof (N_of_ascii_bound a) as Ha.
      pose proof (N_of_ascii_bound b) as Hb.
      pose proof (N_of_ascii_bound c) as Hc.
      destruct (sextet_bounds _ _ Ha Hb) as (H1 & H2 & _ & _ & _ & _).
      destruct (sextet_bounds _ _ Hc Hb) as (_ & _ & H3 & H4 & _ & _).
      cbn [base64_encode base64_decode].
      rewrite !b64_index_char by assumption.
      rewrite IH by (simpl in Hlen; lia).
      rewrite octet_1, octet_2, octet_3, !ascii_N_embedding by assumption.
      reflexivity.
Qed.

Lemma base64_decode_encode (bytes : string) :
  base64_decode (base64_encode bytes) = Some bytes.
Proof. exact (base64_decode_encode_bounded (String.length bytes) bytes (le_n _)). Qed.

(** ** Comparisons *)

Lemma num_ge_not_lt (a b : number) : num_ge a b = true -> num_lt a b = false.
Proof.
  destruct a as [x| | |], b as [y| | |]; cbn; try congruence.
  intros ->. reflexivity.
Qed.

Lemma num_lt_NaN (b : number) : num_lt NaN b = false.
Proof. reflexivity. Qed.

Lemma seconds_since_invalid (now : Date) : seconds_between now InvalidDate = NaN.
Proof. destruct now; reflexivity. Qed.

(** With the default cool-down the gate compares milliseconds with
    300000. *)
Lemma default_gate (now lastUpdate : Z) :
  num_lt (seconds_between (ValidDate now) (ValidDate lastUpdate)) (Fin (5 * 60)) = true
  <-> now - lastUpdate < 300000.
Proof.
  cbn [seconds_between getTime num_lt].
  rewrite negb_true_iff, <- not_true_iff_false, Qle_bool_iff.
  unfold Qle, Qdiv, Qmult, Qinv, Qminus, Qplus, Qopp, inject_Z. cbn.
  lia.
Qed.

(** ** Running programs step by step *)

Section RunFacts.

Context {W : Type}.
Variable respond : forall X : Type, request X -> W -> settled X * W.
Variable clock : W -> Z * W.

Lemma run_bind {A B : Type} (p : prog A) (f : A -> prog B) (w : W) :
  run respond clock (bind p f) w =
  match run respond clock p w with
  | (trace, Fulfilled a, w1) =>
    let '(trace', outcome, w2) := run respond clock (f a) w1 in
    (trace ++ trace', outcome, w2)
  | (trace, Rejected e, w1) => (trace, Rejected e, w1)
  end.
Proof.
  revert w. induction p as [a|e|l what k IH|k IH|X r k IH]; intros w; cbn [bind run].
  - destruct (run respond clock (f a) w) as [[trace outcome] w2]. reflexivity.
  - reflexivity.
  - rewrite IH. destruct (run respond clock k w) as [[trace [a|e]] w1]; [|reflexivity].
    destruct (run respond clock (f a) w1) as [[trace' outcome] w2]. reflexivity.
  - destruct (clock w) as [ms w0]. rewrite IH.
    destruct (run respond clock (k (ValidDate ms)) w0) as [[trace [a|e]] w1]; [|reflexivity].
    destruct (run respond clock (f a) w1) as [[trace' outcome] w2]. reflexivity.
  - destruct (respond X r w) as [answer w0]. rewrite IH.
    destruct (run respond clock (k answer) w0) as [[trace [a|e]] w1]; [|reflexivity].
    destruct (run respond clock (f a) w1) as [[trace' outcome] w2]. reflexivity.
Qed.

Lemma run_await {X : Type} (r : request X) (w w1 : W) (answer : settled X) :
  respond X r w = (answer, w1) ->
  run respond clock (await r) w = ([Called r], answer, w1).
Proof. intros H. cbn. rewrite H. destruct answer; reflexivity. Qed.

Lemma run_console (l : level) (what : printed) (w : W) :
  run respond clock (console l what) w = ([Printed l what], Fulfilled tt, w).
Proof. reflexivity. Qed.

Lemma run_new_Date_now (w w1 : W) (ms : Z) :
  clock w = (ms, w1) ->
  run respond clock new_Date_now w = ([ClockRead (ValidDate ms)], Fulfilled (ValidDate ms), w1).
Proof. intros H. cbn. rewrite H. reflexivity. Qed.

Variable Date_parse : string -> option Z.

(** The freshness query is one request; its result follows the answer. *)
Lemma run_getLastAirtableModificationTime
    (table : Table) (field : string) (w w1 : W) (answer : settled (list AirtableRecord)) :
  respond _ (SelectAll table (Some (latest_query field))) w = (answer, w1) ->
  run respond clock (getLastAirtableModificationTime Date_parse table field) w =
  ([Called (SelectAll table (Some (latest_query field)))],
   match answer with
   | Fulfilled matches =>
     Fulfilled (match head matches with
                | Some mostRecentRecord =>
                  Some (new_Date Date_parse (own_property (fields mostRecentRecord) field))
                | None => None
                end)
   | Rejected e => Rejected e
   end, w1).
Proof.
  intros H. unfold getLastAirtableModificationTime.
  rewrite run_bind, (run_await _ _ _ _ H).
  destruct answer as [matches|e]; [|reflexivity].
  destruct (head matches); reflexivity.
Qed.

Lemma freshness_trace (table : Table) (field : string) (w w1 : W)
    (trace : list event) (outcome : settled (option Date)) :
  run respond clock (getLastAirtableModificationTime Date_parse table field) w
    = (trace, outcome, w1) ->
  trace = [Called (SelectAll table (Some (latest_query field)))].
Proof.
  destruct (respond _ (SelectAll table (Some (latest_query field))) w) as [answer w0] eqn:H.
  rewrite (run_getLastAirtableModificationTime _ _ _ _ _ H). congruence.
Qed.

(** The hash read is one request without configuration. *)
Lemma run_getTargetFileSHA (config : GitHubConfig.t) (w w1 : W)
    (answer : settled AxiosResponse) :
  respond _ (AxiosGet (contents_url config) None) w = (answer, w1) ->
  run respond clock (getTargetFileSHA config) w =
  match answer with
  | Fulfilled response =>
    let '(trace, outcome, w2) := run respond clock (get_member (data response) "sha") w1 in
    (Called (AxiosGet (contents_url config) None) :: trace, outcome, w2)
  | Rejected e => ([Called (AxiosGet (contents_url config) None)], Rejected e, w1)
  end.
Proof.
  intros H. unfold getTargetFileSHA. cbn zeta.
  rewrite run_bind, (run_await _ _ _ _ H).
  destruct answer as [response|e]; reflexivity.
Qed.

Lemma run_get_member (value : json) (key : string) (w : W) :
  exists outcome, run respond clock (get_member value key) w = ([], outcome, w).
Proof. destruct value; cbn; eauto. Qed.

Lemma hash_read_trace (config : GitHubConfig.t) (w w1 : W)
    (trace : list event) (outcome : settled (option json)) :
  run respond clock (getTargetFileSHA config) w = (trace, outcome, w1) ->
  trace = [Called (AxiosGet (contents_url config) None)].
Proof.
  destruct (respond _ (AxiosGet (contents_url config) None) w) as [answer w0] eqn:H.
  rewrite (run_getTargetFileSHA _ _ _ _ H).
  destruct answer as [response|e]; [|congruence].
  destruct (run_get_member (data response) "sha" w0) as [o ->]. congruence.
Qed.

Variable Number_toString : number -> string.

(** The script after the freshness query and the clock read, on the
    branch that exports. *)
Lemma run_export_gate (a : AirtableConfig.t) (g : GitHubConfig.t) (th : option number)
    (w0 w1 w2 : W) (trace0 : list event) (lastUpdate : Date) (ms : Z) :
  run respond clock
      (getLastAirtableModificationTime Date_parse (airtable_table a)
         (AirtableConfig.lastModifiedField a)) w0
    = (trace0, Fulfilled (Some lastUpdate), w1) ->
  clock w1 = (ms, w2) ->
  num_lt (seconds_between (ValidDate ms) lastUpdate) (default (Fin (5 * 60)) th) = false ->
  run respond clock (exportAirtableDataToGitHub Date_parse Number_toString a g th) w0 =
  let '(trace, outcome, w') :=
    run respond clock
      (matches <- await (SelectAll (airtable_table a) None);;
       currentSHA <- getTargetFileSHA g;;
       await (CreateOrUpdateFileContents (GitHubConfig.apiKey g)
                (write_params g currentSHA (uploadData matches))))%prog w2 in
  (Called (SelectAll (airtable_table a)
             (Some (latest_query (AirtableConfig.lastModifiedField a))))
   :: ClockRead (ValidDate ms)
   :: Printed info (Text "Last update time over update treshold, will try to export data.")
   :: trace, outcome, w').
Proof.
  intros Hfresh Hclock Hgate.
  pose proof (freshness_trace _ _ _ _ _ _ Hfresh) as ->.
  unfold exportAirtableDataToGitHub. cbn zeta.
  rewrite run_bind, Hfresh, run_bind, (run_new_Date_now _ _ _ Hclock), Hgate.
  rewrite run_bind, run_console.
  match goal with |- context [run respond clock ?p w2] =>
    destruct (run respond clock p w2) as [[trace outcome] w'] end.
  reflexivity.
Qed.

End RunFacts.

(** ** The claims about a run *)

Section Claims.

Context {W : Type}.
Variable respond : forall X : Type, request X -> W -> settled X * W.
Variable clock : W -> Z * W.
Variable Date_parse : string -> option Z.
Variable Number_toString : number -> string.

Local Abbreviation RUN := (run respond clock).
Local Abbreviation freshness a :=
  (getLastAirtableModificationTime Date_parse (airtable_table a)
     (AirtableConfig.lastModifiedField a)).
Local Abbreviation export := (exportAirtableDataToGitHub Date_parse Number_toString).
Local Abbreviation latest a :=
  (SelectAll (airtable_table a) (Some (latest_query (AirtableConfig.lastModifiedField a)))).

(** The whole run when the gate lets the export through and the two
    reads succeed. *)
Lemma run_export_over_threshold
    (a : AirtableConfig.t) (g : GitHubConfig.t) (th : option number)
    (w0 w1 w2 w3 w4 w5 : W) (trace0 trace3 : list event) (lastUpdate : Date) (ms : Z)
    (matches : list AirtableRecord) (currentSHA : option json) (answer : settled unit) :
  RUN (freshness a) w0 = (trace0, Fulfilled (Some lastUpdate), w1) ->
  clock w1 = (ms, w2) ->
  num_lt (seconds_between (ValidDate ms) lastUpdate) (default (Fin (5 * 60)) th) = false ->
  respond _ (SelectAll (airtable_table a) None) w2 = (Fulfilled matches, w3) ->
  RUN (getTargetFileSHA g) w3 = (trace3, Fulfilled currentSHA, w4) ->
  respond _ (CreateOrUpdateFileContents (GitHubConfig.apiKey g)
               (write_params g currentSHA (uploadData matches))) w4 = (answer, w5) ->
  RUN (export a g th) w0 =
  ([Called (latest a);
    ClockRead (ValidDate ms);
    Printed info (Text "Last update time over update treshold, will try to export data.");
    Called (SelectAll (airtable_table a) None);
    Called (AxiosGet (contents_url g) None);
    Called (CreateOrUpdateFileContents (GitHubConfig.apiKey g)
              (write_params g currentSHA (uploadData matches)))],
   answer, w5).
Proof.
  intros Hfresh Hclock Hgate Hall Hsha Hput.
  rewrite (run_export_gate _ _ _ _ _ _ _ _ _ _ _ _ _ Hfresh Hclock Hgate).
  pose proof (hash_read_trace _ _ _ _ _ _ _ Hsha) as ->.
  rewrite run_bind, (run_await _ _ _ _ _ _ Hall).
  rewrite run_bind, Hsha, (run_await _ _ _ _ _ _ Hput).
  reflexivity.
Qed.

(** C1 (as amended): when the freshness query returns a modification
    time, the elapsed time is at least the cool-down, and the fetch of
    all records and the read of the content hash both succeed, the run
    is exactly: the freshness query, the clock read, the log line, one
    fetch of all records, then one read of the content hash, then one
    create-or-update call that carries the base64 content, the target
    path, the commit message and the hash just read.  The promise
    settles as the write does. *)
Theorem export_runs_once_over_threshold
    (a : AirtableConfig.t) (g : GitHubConfig.t) (th : option number)
    (w0 w1 w2 w3 w4 w5 : W) (trace0 trace3 : list event) (lastUpdate : Date) (ms : Z)
    (matches : list AirtableRecord) (currentSHA : option json) (answer : settled unit) :
  RUN (freshness a) w0 = (trace0, Fulfilled (Some lastUpdate), w1) ->
  clock w1 = (ms, w2) ->
  num_ge (seconds_between (ValidDate ms) lastUpdate) (default (Fin (5 * 60)) th) = true ->
  respond _ (SelectAll (airtable_table a) None) w2 = (Fulfilled matches, w3) ->
  RUN (getTargetFileSHA g) w3 = (trace3, Fulfilled currentSHA, w4) ->
  respond _ (CreateOrUpdateFileContents (GitHubConfig.apiKey g) {|
               FileContents.owner := GitHubConfig.user g;
               FileContents.repo := GitHubConfig.repo g;
               FileContents.path := GitHubConfig.path g;
               FileContents.message := GitHubConfig.message g;
               FileContents.sha := currentSHA;
               FileContents.content :=
                 toBase64 (toJSON (JArr (map (fun m => JObj (fields m)) matches)));
             |}) w4 = (answer, w5) ->
  RUN (export a g th) w0 =
  ([Called (latest a);
    ClockRead (ValidDate ms);
    Printed info (Text "Last update time over update treshold, will try to export data.");
    Called (SelectAll (airtable_table a) None);
    Called (AxiosGet (contents_url g) None);
    Called (CreateOrUpdateFileContents (GitHubConfig.apiKey g) {|
              FileContents.owner := GitHubConfig.user g;
              FileContents.repo := GitHubConfig.repo g;
              FileContents.path := GitHubConfig.path g;
              FileContents.message := GitHubConfig.message g;
              FileContents.sha := currentSHA;
              FileContents.content :=
                toBase64 (toJSON (JArr (map (fun m => JObj (fields m)) matches)));
            |})],
   answer, w5).
Proof.
  intros Hfresh Hclock Hge Hall Hsha Hput.
  exact (run_export_over_threshold a g th w0 w1 w2 w3 w4 w5 trace0 trace3 lastUpdate ms
           matches currentSHA answer Hfresh Hclock (num_ge_not_lt _ _ Hge) Hall Hsha Hput).
Qed.

(** C2: when the freshness query returns a modification time and the
    elapsed time is strictly below the cool-down, the run is the
    freshness query, the clock read and one informational log line;
    it makes no fetch of all records, no hash read and no write, and
    the promise is fulfilled. *)
Theorem export_skipped_below_threshold
    (a : AirtableConfig.t) (g : GitHubConfig.t) (th : option number)
    (w0 w1 w2 : W) (trace0 : list event) (lastUpdate : Date) (ms : Z) :
  RUN (freshness a) w0 = (trace0, Fulfilled (Some lastUpdate), w1) ->
  clock w1 = (ms, w2) ->
  num_lt (seconds_between (ValidDate ms) lastUpdate) (default (Fin (5 * 60)) th) = true ->
  exists trace : list event,
    RUN (export a g th) w0 = (trace, Fulfilled tt, w2)
    /\ trace =
       [Called (latest a);
        ClockRead (ValidDate ms);
        Printed info
          (Text ("Last update below update treshold ("
                 +:+ Number_toString (default (Fin (5 * 60)) th)
                 +:+ " seconds), skipping update."))]
    /\ count is_fetch_all trace = 0%nat
    /\ count is_hash_read trace = 0%nat
    /\ count is_write trace = 0%nat.
Proof.
  intros Hfresh Hclock Hgate.
  pose proof (freshness_trace _ _ _ _ _ _ _ _ _ Hfresh) as ->.
  eexists. split; [|split; [reflexivity|]].
  - unfold exportAirtableDataToGitHub. cbn zeta.
    rewrite run_bind, Hfresh, run_bind, (run_new_Date_now _ _ _ _ _ Hclock), Hgate.
    reflexivity.
  - repeat split.
Qed.

(** C3: when the table has no record (the freshness query is answered
    with an empty list), [getLastAirtableModificationTime] is
    fulfilled with [null], and the script prints one warning, makes no
    further request and is fulfilled. *)
Theorem empty_table_is_no_data
    (a : AirtableConfig.t) (g : GitHubConfig.t) (th : option number) (w0 w1 : W) :
  respond _ (latest a) w0 = (Fulfilled [], w1) ->
  RUN (freshness a) w0 = ([Called (latest a)], Fulfilled None, w1)
  /\ exists trace : list event,
       RUN (export a g th) w0 = (trace, Fulfilled tt, w1)
       /\ trace =
          [Called (latest a);
           Printed warn
             (Text "Unable to determine last table update time, no changes done.")]
       /\ count is_fetch_all trace = 0%nat
       /\ count is_hash_read trace = 0%nat
       /\ count is_write trace = 0%nat.
Proof.
  intros Hlatest.
  assert (RUN (freshness a) w0 = ([Called (latest a)], Fulfilled None, w1)) as Hfresh.
  { rewrite (run_getLastAirtableModificationTime _ _ _ _ _ _ _ _ Hlatest). reflexivity. }
  split; [exact Hfresh|].
  eexists. split; [|split; [reflexivity|repeat split]].
  unfold exportAirtableDataToGitHub. cbn zeta.
  rewrite run_bind, Hfresh. reflexivity.
Qed.

(** C5: when the read of the content hash fails (the request is
    rejected, or the response has no readable body), the run ends
    with that failure right after the read: the trace holds no write. *)
Theorem failed_hash_read_prevents_write
    (a : AirtableConfig.t) (g : GitHubConfig.t) (th : option number)
    (w0 w1 w2 w3 w4 : W) (trace0 trace3 : list event) (lastUpdate : Date) (ms : Z)
    (matches : list AirtableRecord) (e : thrown) :
  RUN (freshness a) w0 = (trace0, Fulfilled (Some lastUpdate), w1) ->
  clock w1 = (ms, w2) ->
  num_lt (seconds_between (ValidDate ms) lastUpdate) (default (Fin (5 * 60)) th) = false ->
  respond _ (SelectAll (airtable_table a) None) w2 = (Fulfilled matches, w3) ->
  RUN (getTargetFileSHA g) w3 = (trace3, Rejected e, w4) ->
  exists trace : list event,
    RUN (export a g th) w0 = (trace, Rejected e, w4)
    /\ trace =
       [Called (latest a);
        ClockRead (ValidDate ms);
        Printed info (Text "Last update time over update treshold, will try to export data.");
        Called (SelectAll (airtable_table a) None);
        Called (AxiosGet (contents_url g) None)]
    /\ count is_write trace = 0%nat.
Proof.
  intros Hfresh Hclock Hgate Hall Hsha.
  eexists. split; [|split; [reflexivity|reflexivity]].
  rewrite (run_export_gate _ _ _ _ _ _ _ _ _ _ _ _ _ Hfresh Hclock Hgate).
  pose proof (hash_read_trace _ _ _ _ _ _ _ Hsha) as ->.
  rewrite run_bind, (run_await _ _ _ _ _ _ Hall).
  rewrite run_bind, Hsha. reflexivity.
Qed.

(** C9: when the time stamp of the most recent record is a string
    that [Date.parse] does not understand, the freshness query is
    fulfilled with an invalid date (not [null], not a rejection), the
    elapsed time is [NaN], the comparison with the cool-down is false
    whatever the cool-down, and the script goes on to fetch all
    records, as it does over the threshold. *)
Theorem unparsable_stamp_exports
    (a : AirtableConfig.t) (g : GitHubConfig.t) (th : option number)
    (w0 w1 w2 : W) (matches : list AirtableRecord) (mostRecentRecord : AirtableRecord)
    (stamp : string) (ms : Z) :
  respond _ (latest a) w0 = (Fulfilled matches, w1) ->
  head matches = Some mostRecentRecord ->
  own_property (fields mostRecentRecord) (AirtableConfig.lastModifiedField a)
    = Some (JStr stamp) ->
  Date_parse stamp = None ->
  clock w1 = (ms, w2) ->
  RUN (freshness a) w0 = ([Called (latest a)], Fulfilled (Some InvalidDate), w1)
  /\ seconds_between (ValidDate ms) InvalidDate = NaN
  /\ num_lt (seconds_between (ValidDate ms) InvalidDate) (default (Fin (5 * 60)) th) = false
  /\ exists (rest : list event) (outcome : settled unit) (w' : W),
       RUN (export a g th) w0 =
       (Called (latest a)
        :: ClockRead (ValidDate ms)
        :: Printed info
             (Text "Last update time over update treshold, will try to export data.")
        :: Called (SelectAll (airtable_table a) None)
        :: rest, outcome, w').
Proof.
  intros Hlatest Hhead Hstamp Hparse Hclock.
  assert (RUN (freshness a) w0 = ([Called (latest a)], Fulfilled (Some InvalidDate), w1))
    as Hfresh.
  { rewrite (run_getLastAirtableModificationTime _ _ _ _ _ _ _ _ Hlatest), Hhead, Hstamp.
    cbn [new_Date]. unfold parsed_date. rewrite Hparse. reflexivity. }
  split; [exact Hfresh|]. split; [reflexivity|]. split; [reflexivity|].
  rewrite (run_export_gate _ _ _ _ _ _ _ _ _ _ _ _ _ Hfresh Hclock (eq_refl _)).
  rewrite run_bind. cbn [await run].
  destruct (respond _ (SelectAll (airtable_table a) None) w2) as [[all|e] w3].
  - cbn [run].
    match goal with |- context [RUN ?p w3] => destruct (RUN p w3) as [[rest outcome] w'] end.
    do 3 eexists. reflexivity.
  - do 3 eexists. reflexivity.
Qed.

(** C6: when [AIRTABLE_API_KEY] or [GITHUB_API_TOKEN] is absent from
    the environment, [main] is a throw of a string that names a
    missing variable, with nothing before it; in every world the
    program only prints that string on the error stream and makes no
    network call. *)
Theorem missing_credential_fails_before_network (env : gmap string string) :
  env !! "AIRTABLE_API_KEY" = None \/ env !! "GITHUB_API_TOKEN" = None ->
  exists (key : string) (trace : list event),
    (key = "AIRTABLE_API_KEY" \/ key = "GITHUB_API_TOKEN")
    /\ env !! key = None
    /\ main Date_parse Number_toString env
       = Throw (ThrownString ("Please define the " +:+ key +:+ " env variable."))
    /\ (forall w : W,
          RUN (entry_point Date_parse Number_toString env) w = (trace, Fulfilled tt, w))
    /\ trace =
       [Printed error
          (Caught (ThrownString ("Please define the " +:+ key +:+ " env variable.")))]
    /\ count is_call trace = 0%nat.
Proof.
  intros Hmissing. unfold entry_point, main, envOrDie.
  destruct (env !! "AIRTABLE_API_KEY") as [airtableKey|] eqn:HA.
  - destruct Hmissing as [Hmissing|Hmissing]; [discriminate|].
    exists "GITHUB_API_TOKEN". eexists. rewrite Hmissing.
    split; [right; reflexivity|]. split; [reflexivity|]. split; [reflexivity|].
    split; [intros w; reflexivity|]. split; reflexivity.
  - exists "AIRTABLE_API_KEY". eexists. rewrite HA.
    split; [left; reflexivity|]. split; [reflexivity|]. split; [reflexivity|].
    split; [intros w; reflexivity|]. split; reflexivity.
Qed.


(** C8: a call without the third argument is the call with 300: the
    default [5 * 60] is 300 seconds, and with it the gate skips the
    export exactly when fewer than 300000 milliseconds have passed. *)
Theorem default_cooldown_is_300 (a : AirtableConfig.t) (g : GitHubConfig.t) :
  export a g None = export a g (Some (Fin 300))
  /\ default (Fin (5 * 60)) (None : option number) = Fin 300
  /\ forall now lastUpdate : Z,
       num_lt (seconds_between (ValidDate now) (ValidDate lastUpdate))
              (default (Fin (5 * 60)) None) = true
       <-> now - lastUpdate < 300 * 1000.
Proof.
  split; [reflexivity|]. split; [reflexivity|].
  intros now lastUpdate. exact (default_gate now lastUpdate).
Qed.

(** C10: the read of the content hash does not depend on the
    credential: two configurations with the same user, repository and
    path give the same program, hence the same run in every world,
    and that run issues one [axios.get] with no configuration on the
    address built from user, repository and path. *)
Theorem hash_read_ignores_credential (g1 g2 : GitHubConfig.t) :
  GitHubConfig.user g1 = GitHubConfig.user g2 ->
  GitHubConfig.repo g1 = GitHubConfig.repo g2 ->
  GitHubConfig.path g1 = GitHubConfig.path g2 ->
  getTargetFileSHA g1 = getTargetFileSHA g2
  /\ forall w : W,
       RUN (getTargetFileSHA g1) w = RUN (getTargetFileSHA g2) w
       /\ exists (outcome : settled (option json)) (w' : W),
            RUN (getTargetFileSHA g2) w =
            ([Called (AxiosGet ("https://api.github.com/repos/" +:+ GitHubConfig.user g1
                                +:+ "/" +:+ GitHubConfig.repo g1
                                +:+ "/contents/" +:+ GitHubConfig.path g1) None)],
             outcome, w').
Proof.
  intros Huser Hrepo Hpath.
  assert (getTargetFileSHA g1 = getTargetFileSHA g2) as Hsame.
  { unfold getTargetFileSHA, contents_url. rewrite Huser, Hrepo, Hpath. reflexivity. }
  split; [exact Hsame|]. intros w. split; [rewrite Hsame; reflexivity|].
  rewrite <- Hsame.
  destruct (RUN (getTargetFileSHA g1) w) as [[trace outcome] w'] eqn:Hrun.
  pose proof (hash_read_trace _ _ _ _ _ _ _ Hrun) as ->.
  exists outcome, w'. reflexivity.
Qed.

(** C4: the uploaded content is the base64 encoding of
    [JSON.stringify(fields, null, 2)], where [fields] is the array of
    the records' field mappings: decoding it gives that text back;
    records with the same fields give the same content, whatever
    their identifiers and creation times; for the fields [{A: 1}] and
    [{B: 2}] the decoded text is the five-line text [sample_text];
    and a run that reaches the write uploads exactly this content. *)
Theorem uploaded_content_is_pretty_json :
  (forall matches : list AirtableRecord,
     uploadData matches
     = base64_encode (JSON_stringify (JArr (map (fun m => JObj (fields m)) matches)) 2)
     /\ base64_decode (uploadData matches)
        = Some (JSON_stringify (JArr (map (fun m => JObj (fields m)) matches)) 2))
  /\ (forall matches matches' : list AirtableRecord,
        map fields matches = map fields matches' ->
        uploadData matches = uploadData matches')
  /\ (forall id1 created1 id2 created2 : string,
        base64_decode
          (uploadData [ {| id := id1; createdTime := created1; fields := [("A", JNum 1)] |};
                        {| id := id2; createdTime := created2; fields := [("B", JNum 2)] |} ])
        = Some (JSON_stringify (JArr [JObj [("A", JNum 1)]; JObj [("B", JNum 2)]]) 2)
        /\ JSON_stringify (JArr [JObj [("A", JNum 1)]; JObj [("B", JNum 2)]]) 2
           = sample_text)
  /\ (forall (a : AirtableConfig.t) (g : GitHubConfig.t) (th : option number)
             (w0 w1 w2 w3 w4 w5 : W) (trace0 trace3 : list event) (lastUpdate : Date)
             (ms : Z) (matches : list AirtableRecord) (currentSHA : option json)
             (answer : settled unit),
        RUN (freshness a) w0 = (trace0, Fulfilled (Some lastUpdate), w1) ->
        clock w1 = (ms, w2) ->
        num_lt (seconds_between (ValidDate ms) lastUpdate) (default (Fin (5 * 60)) th)
          = false ->
        respond _ (SelectAll (airtable_table a) None) w2 = (Fulfilled matches, w3) ->
        RUN (getTargetFileSHA g) w3 = (trace3, Fulfilled currentSHA, w4) ->
        respond _ (CreateOrUpdateFileContents (GitHubConfig.apiKey g)
                     (write_params g currentSHA (uploadData matches))) w4 = (answer, w5) ->
        uploads (fst (fst (RUN (export a g th) w0))) = [uploadData matches]).
Proof.
  split; [|split; [|split]].
  - intros matches. split; [reflexivity|].
    unfold uploadData, toBase64, toJSON, Buffer_from. apply base64_decode_encode.
  - intros matches matches' Hfields. unfold uploadData.
    rewrite <- (map_map fields JObj matches), <- (map_map fields JObj matches'), Hfields.
    reflexivity.
  - intros id1 created1 id2 created2. split; vm_compute; reflexivity.
  - intros a g th w0 w1 w2 w3 w4 w5 trace0 trace3 lastUpdate ms matches currentSHA answer
           Hfresh Hclock Hgate Hall Hsha Hput.
    rewrite (run_export_over_threshold a g th w0 w1 w2 w3 w4 w5 trace0 trace3 lastUpdate ms
               matches currentSHA answer Hfresh Hclock Hgate Hall Hsha Hput).
    reflexivity.
Qed.

End Claims.

(** ** The claims on the sample worlds *)

Lemma export_runs_once_over_threshold_witness :
  sample_run (edited_ago 301) (sample_export None) =
  ([Called (SelectAll (airtable_table sample_airtable) (Some (latest_query "Last Update")));
    ClockRead (ValidDate 1588327501000);
    Printed info (Text "Last update time over update treshold, will try to export data.");
    Called (SelectAll (airtable_table sample_airtable) None);
    Called (AxiosGet "https://api.github.com/repos/zoul/airtable-export/contents/data.json" None);
    Called (CreateOrUpdateFileContents "ghp_TOKEN" {|
              FileContents.owner := "zoul";
              FileContents.repo := "airtable-export";
              FileContents.path := "data.json";
              FileContents.message := "Update data";
              FileContents.sha := Some (JStr "3d21ec53a331a6f037a91c368710b99387d012c1");
              FileContents.content :=
                "WwogIHsKICAgICJBIjogMQogIH0sCiAgewogICAgIkIiOiAyCiAgfQpd";
            |})],
   Fulfilled tt, 4%nat).
Proof.
  exact (export_runs_once_over_threshold
           (scripted_respond (edited_ago 301)) (scripted_clock (edited_ago 301))
           sample_Date_parse sample_Number_toString sample_airtable sample_github None
           0%nat 1%nat 1%nat 2%nat 3%nat 4%nat
           [Called (SelectAll (airtable_table sample_airtable) (Some (latest_query "Last Update")))]
           [Called (AxiosGet (contents_url sample_github) None)]
           (ValidDate 1588327200000) 1588327501000 [record_A; record_B]
           (Some (JStr "3d21ec53a331a6f037a91c368710b99387d012c1")) (Fulfilled tt)
           eq_refl eq_refl eq_refl eq_refl eq_refl eq_refl).
Defined.

(** C1, as stated, fails when one of the two reads is rejected.  In
    both worlds the freshness query returns a time 301 seconds old and
    the cool-down is 300 seconds.  When the fetch of all records is
    rejected the run has one fetch, no hash read and no write; when the
    target file is missing it has one fetch, one hash read and no
    write. *)
Lemma export_stops_when_fetch_fails :
  run (scripted_respond fetch_fails) (scripted_clock fetch_fails)
      (getLastAirtableModificationTime sample_Date_parse (airtable_table sample_airtable)
         "Last Update") 0%nat
  = ([Called (SelectAll (airtable_table sample_airtable) (Some (latest_query "Last Update")))],
     Fulfilled (Some (ValidDate 1588327200000)), 1%nat)
  /\ num_ge (seconds_between (ValidDate (time_now fetch_fails)) (ValidDate 1588327200000))
            (Fin 300) = true
  /\ sample_run fetch_fails (sample_export None) =
     ([Called (SelectAll (airtable_table sample_airtable) (Some (latest_query "Last Update")));
       ClockRead (ValidDate 1588327501000);
       Printed info (Text "Last update time over update treshold, will try to export data.");
       Called (SelectAll (airtable_table sample_airtable) None)],
      Rejected timed_out, 2%nat)
  /\ count is_fetch_all (fst (fst (sample_run fetch_fails (sample_export None)))) = 1%nat
  /\ count is_hash_read (fst (fst (sample_run fetch_fails (sample_export None)))) = 0%nat
  /\ count is_write (fst (fst (sample_run fetch_fails (sample_export None)))) = 0%nat
  /\ num_ge (seconds_between (ValidDate (time_now file_missing)) (ValidDate 1588327200000))
            (Fin 300) = true
  /\ snd (fst (sample_run file_missing (sample_export None))) = Rejected not_found
  /\ count is_fetch_all (fst (fst (sample_run file_missing (sample_export None)))) = 1%nat
  /\ count is_hash_read (fst (fst (sample_run file_missing (sample_export None)))) = 1%nat
  /\ count is_write (fst (fst (sample_run file_missing (sample_export None)))) = 0%nat.
Proof. vm_compute. repeat split. Qed.

Lemma export_skipped_below_threshold_witness :
  exists trace : list event,
    sample_run (edited_ago 10) (sample_export None) = (trace, Fulfilled tt, 1%nat)
    /\ trace =
       [Called (SelectAll (airtable_table sample_airtable) (Some (latest_query "Last Update")));
        ClockRead (ValidDate 1588327210000);
        Printed info
          (Text "Last update below update treshold (300 seconds), skipping update.")]
    /\ count is_fetch_all trace = 0%nat
    /\ count is_hash_read trace = 0%nat
    /\ count is_write trace = 0%nat.
Proof.
  exact (export_skipped_below_threshold
           (scripted_respond (edited_ago 10)) (scripted_clock (edited_ago 10))
           sample_Date_parse sample_Number_toString sample_airtable sample_github None
           0%nat 1%nat 1%nat
           [Called (SelectAll (airtable_table sample_airtable) (Some (latest_query "Last Update")))]
           (ValidDate 1588327200000) 1588327210000
           eq_refl eq_refl eq_refl).
Defined.

Lemma empty_table_is_no_data_witness :
  run (scripted_respond empty_table) (scripted_clock empty_table)
      (getLastAirtableModificationTime sample_Date_parse (airtable_table sample_airtable)
         "Last Update") 0%nat
  = ([Called (SelectAll (airtable_table sample_airtable) (Some (latest_query "Last Update")))],
     Fulfilled None, 1%nat)
  /\ exists trace : list event,
       sample_run empty_table (sample_export None) = (trace, Fulfilled tt, 1%nat)
       /\ trace =
          [Called (SelectAll (airtable_table sample_airtable)
                     (Some (latest_query "Last Update")));
           Printed warn (Text "Unable to determine last table update time, no changes done.")]
       /\ count is_fetch_all trace = 0%nat
       /\ count is_hash_read trace = 0%nat
       /\ count is_write trace = 0%nat.
Proof.
  exact (empty_table_is_no_data
           (scripted_respond empty_table) (scripted_clock empty_table)
           sample_Date_parse sample_Number_toString sample_airtable sample_github None
           0%nat 1%nat eq_refl).
Defined.

Lemma uploaded_content_is_pretty_json_witness :
  uploads (fst (fst (sample_run (edited_ago 301) (sample_export None))))
  = [uploadData [record_A; record_B]]
  /\ base64_decode (uploadData [record_A; record_B]) = Some sample_text.
Proof.
  split.
  - exact (proj2 (proj2 (proj2
             (uploaded_content_is_pretty_json
                (scripted_respond (edited_ago 301)) (scripted_clock (edited_ago 301))
                sample_Date_parse sample_Number_toString)))
             sample_airtable sample_github None
             0%nat 1%nat 1%nat 2%nat 3%nat 4%nat
             [Called (SelectAll (airtable_table sample_airtable)
                        (Some (latest_query "Last Update")))]
             [Called (AxiosGet (contents_url sample_github) None)]
             (ValidDate 1588327200000) 1588327501000 [record_A; record_B]
             (Some (JStr "3d21ec53a331a6f037a91c368710b99387d012c1")) (Fulfilled tt)
             eq_refl eq_refl eq_refl eq_refl eq_refl eq_refl).
  - reflexivity.
Defined.

Lemma failed_hash_read_prevents_write_witness :
  exists trace : list event,
    sample_run file_missing (sample_export None) = (trace, Rejected not_found, 3%nat)
    /\ trace =
       [Called (SelectAll (airtable_table sample_airtable) (Some (latest_query "Last Update")));
        ClockRead (ValidDate 1588327501000);
        Printed info (Text "Last update time over update treshold, will try to export data.");
        Called (SelectAll (airtable_table sample_airtable) None);
        Called (AxiosGet "https://api.github.com/repos/zoul/airtable-export/contents/data.json"
                  None)]
    /\ count is_write trace = 0%nat.
Proof.
  exact (failed_hash_read_prevents_write
           (scripted_respond file_missing) (scripted_clock file_missing)
           sample_Date_parse sample_Number_toString sample_airtable sample_github None
           0%nat 1%nat 1%nat 2%nat 3%nat
           [Called (SelectAll (airtable_table sample_airtable) (Some (latest_query "Last Update")))]
           [Called (AxiosGet (contents_url sample_github) None)]
           (ValidDate 1588327200000) 1588327501000 [record_A; record_B] not_found
           eq_refl eq_refl eq_refl eq_refl eq_refl).
Defined.

Lemma missing_credential_fails_before_network_witness :
  exists (key : string) (trace : list event),
    (key = "AIRTABLE_API_KEY" \/ key = "GITHUB_API_TOKEN")
    /\ no_token_env !! key = None
    /\ main sample_Date_parse sample_Number_toString no_token_env
       = Throw (ThrownString ("Please define the " +:+ key +:+ " env variable."))
    /\ (forall served : nat,
          run (scripted_respond (edited_ago 301)) (scripted_clock (edited_ago 301))
              (entry_point sample_Date_parse sample_Number_toString no_token_env) served
          = (trace, Fulfilled tt, served))
    /\ trace =
       [Printed error
          (Caught (ThrownString ("Please define the " +:+ key +:+ " env variable.")))]
    /\ count is_call trace = 0%nat.
Proof.
  apply (missing_credential_fails_before_network
           (scripted_respond (edited_ago 301)) (scripted_clock (edited_ago 301))
           sample_Date_parse sample_Number_toString no_token_env).
  right. vm_compute. reflexivity.
Defined.



Lemma unparsable_stamp_exports_witness :
  run (scripted_respond garbled_stamp) (scripted_clock garbled_stamp)
      (getLastAirtableModificationTime sample_Date_parse (airtable_table sample_airtable)
         "Last Update") 0%nat
  = ([Called (SelectAll (airtable_table sample_airtable) (Some (latest_query "Last Update")))],
     Fulfilled (Some InvalidDate), 1%nat)
  /\ seconds_between (ValidDate 1588327200000) InvalidDate = NaN
  /\ num_lt (seconds_between (ValidDate 1588327200000) InvalidDate) (Fin (5 * 60)) = false
  /\ exists (rest : list event) (outcome : settled unit) (served : nat),
       sample_run garbled_stamp (sample_export None) =
       (Called (SelectAll (airtable_table sample_airtable) (Some (latest_query "Last Update")))
        :: ClockRead (ValidDate 1588327200000)
        :: Printed info
             (Text "Last update time over update treshold, will try to export data.")
        :: Called (SelectAll (airtable_table sample_airtable) None)
        :: rest, outcome, served).
Proof.
  exact (unparsable_stamp_exports
           (scripted_respond garbled_stamp) (scripted_clock garbled_stamp)
           sample_Date_parse sample_Number_toString sample_airtable sample_github None
           0%nat 1%nat 1%nat [stamped "yesterday-ish"] (stamped "yesterday-ish")
           "yesterday-ish" 1588327200000
           eq_refl eq_refl eq_refl eq_refl eq_refl).
Defined.

Lemma hash_read_ignores_credential_witness :
  getTargetFileSHA sample_github = getTargetFileSHA other_token_github
  /\ forall served : nat,
       run (scripted_respond file_missing) (scripted_clock file_missing)
           (getTargetFileSHA sample_github) served
       = run (scripted_respond file_missing) (scripted_clock file_missing)
             (getTargetFileSHA other_token_github) served
       /\ exists (outcome : settled (option json)) (served' : nat),
            run (scripted_respond file_missing) (scripted_clock file_missing)
                (getTargetFileSHA other_token_github) served =
            ([Called (AxiosGet
                        "https://api.github.com/repos/zoul/airtable-export/contents/data.json"
                        None)],
             outcome, served').
Proof.
  exact (hash_read_ignores_credential
           (scripted_respond file_missing) (scripted_clock file_missing)
           sample_github other_token_github eq_refl eq_refl eq_refl).
Defined.

(** * Further properties of the script *)

(** ** The output of [toBase64] *)

Lemma base64_encode_length_bounded (n : nat) :
  forall bytes : string, (String.length bytes <= n)%nat ->
  String.length (base64_encode bytes) = (4 * ((String.length bytes + 2) / 3))%nat.
Proof.
  induction n as [|n IH]; intros bytes Hlen.
  - destruct bytes; [reflexivity | simpl in Hlen; lia].
  - destruct bytes as [|a [|b [|c rest]]]; [reflexivity | reflexivity | reflexivity |].
    cbn [base64_encode String.length].
    rewrite IH by (simpl in Hlen; lia).
    replace (S (S (S (String.length rest))) + 2)%nat
      with (1 * 3 + (String.length rest + 2))%nat by lia.
    rewrite Nat.div_add_l by lia. lia.
Qed.

Lemma b64_char_in_alphabet (i : N) : (i < 64)%N -> in_base64_alphabet (b64_char i) = true.
Proof. intros Hi. unfold in_base64_alphabet. rewrite b64_index_char by assumption. reflexivity. Qed.

Lemma base64_encode_alphabet_bounded (n : nat) :
  forall bytes : string, (String.length bytes <= n)%nat ->
  all_chars in_base64_alphabet (base64_encode bytes) = true.
Proof.
  induction n as [|n IH]; intros bytes Hlen.
  - destruct bytes; [reflexivity | simpl in Hlen; lia].
  - destruct bytes as [|a [|b [|c rest]]]; [reflexivity | | | ].
    + pose proof (N_of_ascii_bound a) as Ha.
      destruct (sextet_bounds _ _ Ha Ha) as (H1 & _ & _ & _ & H2 & _).
      cbn [base64_encode all_chars].
      rewrite !b64_char_in_alphabet by assumption. reflexivity.
    + pose proof (N_of_ascii_bound a) as Ha.
      pose proof (N_of_ascii_bound b) as Hb.
      destruct (sextet_bounds _ _ Ha Hb) as (H1 & H2 & _ & _ & _ & H3).
      cbn [base64_encode all_chars].
      rewrite !b64_char_in_alphabet by assumption. reflexivity.
    + pose proof (N_of_ascii_bound a) as Ha.
      pose proof (N_of_ascii_bound b) as Hb.
      pose proof (N_of_ascii_bound c) as Hc.
      destruct (sextet_bounds _ _ Ha Hb) as (H1 & H2 & _ & _ & _ & _).
      destruct (sextet_bounds _ _ Hc Hb) as (_ & _ & H3 & H4 & _ & _).
      cbn [base64_encode all_chars].
      rewrite !b64_char_in_alphabet by assumption.
      rewrite IH by (simpl in Hlen; lia). reflexivity.
Qed.

(** X1: the base64 step of [toBase64] loses nothing: decoding the
    output gives back the bytes that [Buffer.from] made of the text, so
    two texts with the same output have the same bytes. *)
Theorem toBase64_keeps_the_bytes :
  (forall data : string, base64_decode (toBase64 data) = Some (Buffer_from data))
  /\ forall data data' : string,
       toBase64 data = toBase64 data' -> Buffer_from data = Buffer_from data'.
Proof.
  split.
  - intros data. unfold toBase64. apply base64_decode_encode.
  - intros data data' H. unfold toBase64 in H.
    apply (f_equal base64_decode) in H.
    rewrite !base64_decode_encode in H. congruence.
Qed.

(** X2: the encoding of [n] bytes has [4 * ceil(n / 3)] characters; in
    particular its length is a multiple of four. *)
Theorem toBase64_length (data : string) :
  String.length (toBase64 data) = (4 * ((String.length data + 2) / 3))%nat.
Proof.
  unfold toBase64, Buffer_from.
  exact (base64_encode_length_bounded (String.length data) data (le_n _)).
Qed.

(** X3: the encoding is made of letters, digits, [+], [/] and the
    padding [=] only. *)
Theorem toBase64_alphabet (data : string) :
  all_chars in_base64_alphabet (toBase64 data) = true.
Proof.
  unfold toBase64, Buffer_from.
  exact (base64_encode_alphabet_bounded (String.length data) data (le_n _)).
Qed.

(** ** The output of [toJSON] for a string *)

Lemma all_chars_app (ok : ascii -> bool) (s t : string) :
  all_chars ok (s +:+ t) = all_chars ok s && all_chars ok t.
Proof.
  induction s as [|c s IH]; [reflexivity|].
  simpl. rewrite IH, andb_assoc. reflexivity.
Qed.

Lemma quote_char_no_control (c : ascii) : all_chars not_control (quote_char c) = true.
Proof. destruct c as [[] [] [] [] [] [] [] []]; vm_compute; reflexivity. Qed.

(** X4: the JSON text of a string holds no control character: a line
    break, a tab or any other character below code 32 of a field value
    or of a field name is written as an escape. *)
Theorem quoted_string_has_no_control_character (s : string) :
  all_chars not_control (QuoteJSONString s) = true
  /\ all_chars not_control (toJSON (JStr s)) = true.
Proof.
  assert (all_chars not_control (QuoteJSONString s) = true) as Hquote.
  { unfold QuoteJSONString. rewrite !all_chars_app.
    assert (all_chars not_control (quote_chars s) = true) as ->.
    { induction s as [|c s IH]; [reflexivity|].
      cbn [quote_chars]. rewrite all_chars_app, quote_char_no_control, IH. reflexivity. }
    reflexivity. }
  split; [exact Hquote|]. exact Hquote.
Qed.

(** ** The threshold gate *)

(** X5: for a cool-down that is a whole number of seconds, up to
    10^12, and two dates in the range of a [Date], the gate skips the
    export exactly when the elapsed milliseconds are below
    [1000 * seconds].  (On these inputs the doubles of the source give
    the same difference, quotient and comparison as the rationals.) *)
Theorem gate_whole_seconds (now lastUpdate seconds : Z) :
  Z.abs now <= 8640000000000000 ->
  Z.abs lastUpdate <= 8640000000000000 ->
  Z.abs seconds <= 1000000000000 ->
  num_lt (seconds_between (ValidDate now) (ValidDate lastUpdate)) (Fin (inject_Z seconds))
    = true
  <-> now - lastUpdate < 1000 * seconds.
Proof.
  intros _ _ _. cbn [seconds_between getTime num_lt].
  rewrite negb_true_iff, <- not_true_iff_false, Qle_bool_iff.
  gate_arith.
Qed.

(** X6: the gate is monotone in the clock: when the export is skipped
    at some time, it is skipped at every earlier time, whatever the
    cool-down and the modification time. *)
Theorem gate_monotone (now earlier : Z) (lastUpdate : Date) (threshold : number) :
  num_lt (seconds_between (ValidDate now) lastUpdate) threshold = true ->
  earlier <= now ->
  num_lt (seconds_between (ValidDate earlier) lastUpdate) threshold = true.
Proof.
  destruct lastUpdate as [t|]; [|discriminate].
  destruct threshold as [q| | |]; cbn [seconds_between getTime num_lt];
    try (intros; assumption || discriminate).
  rewrite !negb_true_iff, <- !not_true_iff_false, !Qle_bool_iff.
  destruct q as [qn qd]. intros Hskip Hle Hnot. apply Hskip. revert Hnot.
  gate_arith.
Qed.

(** ** Every run of the script *)

Section Runs.

Context {W : Type}.
Variable respond : forall X : Type, request X -> W -> settled X * W.
Variable clock : W -> Z * W.
Variable Date_parse : string -> option Z.
Variable Number_toString : number -> string.

Local Abbreviation RUN := (run respond clock).
Local Abbreviation freshness a :=
  (getLastAirtableModificationTime Date_parse (airtable_table a)
     (AirtableConfig.lastModifiedField a)).
Local Abbreviation export := (exportAirtableDataToGitHub Date_parse Number_toString).
Local Abbreviation latest a :=
  (SelectAll (airtable_table a) (Some (latest_query (AirtableConfig.lastModifiedField a)))).
Local Abbreviation over_line :=
  (Printed info (Text "Last update time over update treshold, will try to export data.")).
Local Abbreviation below_line th :=
  (Printed info
     (Text ("Last update below update treshold ("
            +:+ Number_toString (default (Fin (5 * 60)) th)
            +:+ " seconds), skipping update."))).
Local Abbreviation warn_line :=
  (Printed warn (Text "Unable to determine last table update time, no changes done.")).

(** What [getTargetFileSHA] settles to, from the answer to its request. *)
Lemma run_hash_read (g : GitHubConfig.t) (w w1 : W) (answer : settled AxiosResponse) :
  respond _ (AxiosGet (contents_url g) None) w = (answer, w1) ->
  RUN (getTargetFileSHA g) w =
  ([Called (AxiosGet (contents_url g) None)],
   match answer with
   | Rejected e => Rejected e
   | Fulfilled response =>
     match data response with
     | JNull =>
       Rejected (ThrownError "TypeError" "Cannot read properties of null (reading 'sha')")
     | JObj members => Fulfilled (own_property members "sha")
     | _ => Fulfilled None
     end
   end, w1).
Proof.
  intros H. rewrite (run_getTargetFileSHA _ _ _ _ _ _ H).
  destruct answer as [response|e]; [|reflexivity].
  destruct (data response); reflexivity.
Qed.

(** The run of the script, case by case. *)
Lemma run_export_unfold (a : AirtableConfig.t) (g : GitHubConfig.t) (th : option number)
    (w0 : W) :
  RUN (export a g th) w0 =
  let '(found, w1) := respond _ (latest a) w0 in
  match found with
  | Rejected e => ([Called (latest a)], Rejected e, w1)
  | Fulfilled found =>
    match head found with
    | None => ([Called (latest a); warn_line], Fulfilled tt, w1)
    | Some mostRecentRecord =>
      let lastUpdate :=
        new_Date Date_parse
          (own_property (fields mostRecentRecord) (AirtableConfig.lastModifiedField a)) in
      let '(ms, w2) := clock w1 in
      if num_lt (seconds_between (ValidDate ms) lastUpdate) (default (Fin (5 * 60)) th)
      then ([Called (latest a); ClockRead (ValidDate ms); below_line th], Fulfilled tt, w2)
      else
        let '(fetched, w3) := respond _ (SelectAll (airtable_table a) None) w2 in
        match fetched with
        | Rejected e =>
          ([Called (latest a); ClockRead (ValidDate ms); over_line;
            Called (SelectAll (airtable_table a) None)], Rejected e, w3)
        | Fulfilled matches =>
          let '(trace, currentSHA, w4) := RUN (getTargetFileSHA g) w3 in
          match currentSHA with
          | Rejected e =>
            ([Called (latest a); ClockRead (ValidDate ms); over_line;
              Called (SelectAll (airtable_table a) None);
              Called (AxiosGet (contents_url g) None)], Rejected e, w4)
          | Fulfilled currentSHA =>
            let '(written, w5) :=
              respond _ (CreateOrUpdateFileContents (GitHubConfig.apiKey g)
                           (write_params g currentSHA (uploadData matches))) w4 in
            ([Called (latest a); ClockRead (ValidDate ms); over_line;
              Called (SelectAll (airtable_table a) None);
              Called (AxiosGet (contents_url g) None);
              Called (CreateOrUpdateFileContents (GitHubConfig.apiKey g)
                        (write_params g currentSHA (uploadData matches)))],
             written, w5)
          end
        end
    end
  end.
Proof.
  destruct (respond _ (latest a) w0) as [found w1] eqn:Hlatest.
  pose proof (run_getLastAirtableModificationTime respond clock Date_parse _ _ _ _ _ Hlatest)
    as Hfresh.
  destruct found as [found|e].
  2:{ unfold exportAirtableDataToGitHub. cbn zeta. rewrite run_bind, Hfresh. reflexivity. }
  destruct (head found) as [mostRecentRecord|].
  2:{ unfold exportAirtableDataToGitHub. cbn zeta. rewrite run_bind, Hfresh. reflexivity. }
  cbn zeta. destruct (clock w1) as [ms w2] eqn:Hclock.
  destruct (num_lt _ _) eqn:Hgate.
  { unfold exportAirtableDataToGitHub. cbn zeta.
    rewrite run_bind, Hfresh, run_bind, (run_new_Date_now _ _ _ _ _ Hclock), Hgate.
    reflexivity. }
  rewrite (run_export_gate _ _ _ _ _ _ _ _ _ _ _ _ _ Hfresh Hclock Hgate).
  destruct (respond _ (SelectAll (airtable_table a) None) w2) as [fetched w3] eqn:Hall.
  rewrite run_bind, (run_await _ _ _ _ _ _ Hall).
  destruct fetched as [matches|e]; [|reflexivity].
  rewrite run_bind.
  destruct (RUN (getTargetFileSHA g) w3) as [[trace currentSHA] w4] eqn:Hsha.
  pose proof (hash_read_trace _ _ _ _ _ _ _ Hsha) as ->.
  destruct currentSHA as [currentSHA|e]; [|reflexivity].
  destruct (respond _ (CreateOrUpdateFileContents (GitHubConfig.apiKey g)
                         (write_params g currentSHA (uploadData matches))) w4)
    as [written w5] eqn:Hput.
  rewrite (run_await _ _ _ _ _ _ Hput). reflexivity.
Qed.

(** Case analysis on a run of the script, leaving one goal per path. *)
Ltac each_run a g th w0 :=
  rewrite (run_export_unfold a g th w0);
  destruct (respond _ (latest a) w0) as [[found|?] ?];
  [destruct (head found) as [?|];
   [cbn zeta; destruct (clock _) as [? ?]; destruct (num_lt _ _);
    [|destruct (respond _ (SelectAll (airtable_table a) None) _) as [[?|?] ?];
      [destruct (RUN (getTargetFileSHA g) _) as [[? [?|?]] ?];
       [destruct (respond _ (CreateOrUpdateFileContents _ _) _) as [? ?]|]|]]|]|].


(** X8: a write is always preceded by a read of the hash of the same
    file.  In every run the requests that go to GitHub are, in order:
    none; or one [axios.get] without configuration on the contents
    address of the target file; or that read and then one write, which
    carries the destination credential, the owner, repository, path
    and message of the destination and the base64 text of a list of
    records. *)
Theorem export_write_follows_hash_read (a : AirtableConfig.t) (g : GitHubConfig.t)
    (th : option number) (w0 : W) :
  github_calls (fst (fst (RUN (export a g th) w0))) = []
  \/ github_calls (fst (fst (RUN (export a g th) w0))) =
     [GitHubRead ("https://api.github.com/repos/" +:+ GitHubConfig.user g +:+ "/"
                  +:+ GitHubConfig.repo g +:+ "/contents/" +:+ GitHubConfig.path g) None]
  \/ exists (currentSHA : option json) (matches : list AirtableRecord),
       github_calls (fst (fst (RUN (export a g th) w0))) =
       [GitHubRead ("https://api.github.com/repos/" +:+ GitHubConfig.user g +:+ "/"
                    +:+ GitHubConfig.repo g +:+ "/contents/" +:+ GitHubConfig.path g) None;
        GitHubWrite (GitHubConfig.apiKey g)
          {| FileContents.owner := GitHubConfig.user g;
             FileContents.repo := GitHubConfig.repo g;
             FileContents.path := GitHubConfig.path g;
             FileContents.message := GitHubConfig.message g;
             FileContents.sha := currentSHA;
             FileContents.content :=
               toBase64 (toJSON (JArr (map (fun m => JObj (fields m)) matches))) |}].
Proof.
  each_run a g th w0;
    first [ left; reflexivity
          | right; left; reflexivity
          | right; right; do 2 eexists; reflexivity ].
Qed.

(** X9: the script prints at most one line per run, never on the error
    stream, and the line is one of three fixed texts (the cool-down is
    the only value in them): no credential and no record is printed. *)
Theorem export_prints_fixed_lines (a : AirtableConfig.t) (g : GitHubConfig.t)
    (th : option number) (w0 : W) :
  printed_lines (fst (fst (RUN (export a g th) w0))) = []
  \/ printed_lines (fst (fst (RUN (export a g th) w0))) =
     [(warn, Text "Unable to determine last table update time, no changes done.")]
  \/ printed_lines (fst (fst (RUN (export a g th) w0))) =
     [(info, Text ("Last update below update treshold ("
                   +:+ Number_toString (default (Fin (5 * 60)) th)
                   +:+ " seconds), skipping update."))]
  \/ printed_lines (fst (fst (RUN (export a g th) w0))) =
     [(info, Text "Last update time over update treshold, will try to export data.")].
Proof.
  each_run a g th w0;
    first [ left; reflexivity
          | right; left; reflexivity
          | right; right; left; reflexivity
          | right; right; right; reflexivity ].
Qed.

(** X10: when the freshness query is rejected the script is rejected
    with the same reason, prints nothing and makes no other request. *)
Theorem freshness_rejection_propagates (a : AirtableConfig.t) (g : GitHubConfig.t)
    (th : option number) (w0 w1 : W) (e : thrown) :
  respond _ (latest a) w0 = (Rejected e, w1) ->
  RUN (export a g th) w0 = ([Called (latest a)], Rejected e, w1).
Proof.
  intros Hlatest. rewrite run_export_unfold, Hlatest. reflexivity.
Qed.

(** X11: when the fetch of all records is rejected the script is
    rejected with the same reason right after it: GitHub is not
    contacted. *)
Theorem fetch_rejection_propagates (a : AirtableConfig.t) (g : GitHubConfig.t)
    (th : option number) (w0 w1 w2 w3 : W) (trace0 : list event) (lastUpdate : Date)
    (ms : Z) (e : thrown) :
  RUN (freshness a) w0 = (trace0, Fulfilled (Some lastUpdate), w1) ->
  clock w1 = (ms, w2) ->
  num_lt (seconds_between (ValidDate ms) lastUpdate) (default (Fin (5 * 60)) th) = false ->
  respond _ (SelectAll (airtable_table a) None) w2 = (Rejected e, w3) ->
  RUN (export a g th) w0 =
  ([Called (latest a); ClockRead (ValidDate ms); over_line;
    Called (SelectAll (airtable_table a) None)], Rejected e, w3)
  /\ gets (fst (fst (RUN (export a g th) w0))) = []
  /\ writes (fst (fst (RUN (export a g th) w0))) = [].
Proof.
  intros Hfresh Hclock Hgate Hall.
  rewrite (run_export_gate _ _ _ _ _ _ _ _ _ _ _ _ _ Hfresh Hclock Hgate).
  rewrite run_bind, (run_await _ _ _ _ _ _ Hall). repeat split.
Qed.

(** X12: the freshness query is one request for at most one record,
    with the time stamp field only, sorted by that field in descending
    order; when the first record of the answer holds a time stamp that
    [Date.parse] understands, within the range of a date, the query is
    fulfilled with exactly that time. *)
Theorem freshness_returns_parsed_stamp (table : Table) (field stamp : string)
    (w0 w1 : W) (matches : list AirtableRecord) (mostRecentRecord : AirtableRecord)
    (ms : Z) :
  respond _ (SelectAll table
               (Some {| select_fields := [field];
                        select_sort := [(field, desc)];
                        select_maxRecords := 1 |})) w0 = (Fulfilled matches, w1) ->
  head matches = Some mostRecentRecord ->
  own_property (fields mostRecentRecord) field = Some (JStr stamp) ->
  Date_parse stamp = Some ms ->
  Z.abs ms <= 8640000000000000 ->
  RUN (getLastAirtableModificationTime Date_parse table field) w0 =
  ([Called (SelectAll table
              (Some {| select_fields := [field];
                       select_sort := [(field, desc)];
                       select_maxRecords := 1 |}))],
   Fulfilled (Some (ValidDate ms)), w1).
Proof.
  intros Hlatest Hhead Hstamp Hparse Hrange.
  rewrite (run_getLastAirtableModificationTime _ _ _ _ _ _ _ _ Hlatest), Hhead, Hstamp.
  cbn [new_Date]. unfold parsed_date, TimeClip. rewrite Hparse.
  destruct (Z.leb_spec (Z.abs ms) 8640000000000000); [reflexivity|lia].
Qed.

(** X13: when the most recent record has no value in the time stamp
    field, the freshness query is fulfilled with an invalid date, not
    with [null], and the script goes on to fetch all records whatever
    the cool-down. *)
Theorem missing_stamp_exports (a : AirtableConfig.t) (g : GitHubConfig.t)
    (th : option number) (w0 w1 w2 : W) (matches : list AirtableRecord)
    (mostRecentRecord : AirtableRecord) (ms : Z) :
  respond _ (latest a) w0 = (Fulfilled matches, w1) ->
  head matches = Some mostRecentRecord ->
  own_property (fields mostRecentRecord) (AirtableConfig.lastModifiedField a) = None ->
  clock w1 = (ms, w2) ->
  RUN (freshness a) w0 = ([Called (latest a)], Fulfilled (Some InvalidDate), w1)
  /\ exists (rest : list event) (outcome : settled unit) (w' : W),
       RUN (export a g th) w0 =
       (Called (latest a) :: ClockRead (ValidDate ms) :: over_line
        :: Called (SelectAll (airtable_table a) None) :: rest, outcome, w').
Proof.
  intros Hlatest Hhead Hstamp Hclock.
  split.
  { rewrite (run_getLastAirtableModificationTime _ _ _ _ _ _ _ _ Hlatest), Hhead, Hstamp.
    reflexivity. }
  rewrite run_export_unfold, Hlatest, Hhead, Hstamp. cbn zeta. rewrite Hclock.
  cbn [new_Date seconds_between getTime num_lt].
  destruct (respond _ (SelectAll (airtable_table a) None) w2) as [[all|e] w3].
  - destruct (RUN (getTargetFileSHA g) w3) as [[trace [currentSHA|e]] w4].
    + destruct (respond _ (CreateOrUpdateFileContents _ _) w4) as [written w5].
      do 3 eexists. reflexivity.
    + do 3 eexists. reflexivity.
  - do 3 eexists. reflexivity.
Qed.

(** X14: what the hash read settles to.  A rejected request is passed
    on; a [null] body is a [TypeError]; an object body gives its [sha]
    member, [undefined] when it has none; any other body (an array, a
    string, a number) gives [undefined].  In all cases the request is
    the only effect. *)
Theorem hash_read_result (g : GitHubConfig.t) (w w1 : W) (answer : settled AxiosResponse) :
  respond _ (AxiosGet (contents_url g) None) w = (answer, w1) ->
  RUN (getTargetFileSHA g) w =
  ([Called (AxiosGet (contents_url g) None)],
   match answer with
   | Rejected e => Rejected e
   | Fulfilled response =>
     match data response with
     | JNull =>
       Rejected (ThrownError "TypeError" "Cannot read properties of null (reading 'sha')")
     | JObj members => Fulfilled (own_property members "sha")
     | _ => Fulfilled None
     end
   end, w1).
Proof.
  intros H. rewrite (run_hash_read _ _ _ _ H). reflexivity.
Qed.

(** X15: a hash read that is answered, but with a body that holds no
    [sha] (an object without that member, or anything that is neither
    an object nor [null]), does not stop the script: the write is made,
    with [sha] undefined. *)
Theorem write_without_hash (a : AirtableConfig.t) (g : GitHubConfig.t)
    (th : option number) (w0 w1 w2 w3 w4 w5 : W) (trace0 : list event) (lastUpdate : Date)
    (ms : Z) (matches : list AirtableRecord) (response : AxiosResponse)
    (answer : settled unit) :
  RUN (freshness a) w0 = (trace0, Fulfilled (Some lastUpdate), w1) ->
  clock w1 = (ms, w2) ->
  num_lt (seconds_between (ValidDate ms) lastUpdate) (default (Fin (5 * 60)) th) = false ->
  respond _ (SelectAll (airtable_table a) None) w2 = (Fulfilled matches, w3) ->
  respond _ (AxiosGet (contents_url g) None) w3 = (Fulfilled response, w4) ->
  data response <> JNull ->
  (forall members, data response = JObj members -> own_property members "sha" = None) ->
  respond _ (CreateOrUpdateFileContents (GitHubConfig.apiKey g)
               (write_params g None (uploadData matches))) w4 = (answer, w5) ->
  RUN (export a g th) w0 =
  ([Called (latest a); ClockRead (ValidDate ms); over_line;
    Called (SelectAll (airtable_table a) None);
    Called (AxiosGet (contents_url g) None);
    Called (CreateOrUpdateFileContents (GitHubConfig.apiKey g) {|
              FileContents.owner := GitHubConfig.user g;
              FileContents.repo := GitHubConfig.repo g;
              FileContents.path := GitHubConfig.path g;
              FileContents.message := GitHubConfig.message g;
              FileContents.sha := None;
              FileContents.content := uploadData matches;
            |})],
   answer, w5).
Proof.
  intros Hfresh Hclock Hgate Hall Hget Hnull Hsha Hput.
  assert (RUN (getTargetFileSHA g) w3
          = ([Called (AxiosGet (contents_url g) None)], Fulfilled None, w4)) as Hread.
  { rewrite (run_hash_read _ _ _ _ Hget).
    destruct (data response) as [| | | | |members]; try reflexivity.
    - contradiction.
    - rewrite (Hsha members eq_refl). reflexivity. }
  exact (run_export_over_threshold respond clock Date_parse Number_toString
           a g th w0 w1 w2 w3 w4 w5 trace0 _ lastUpdate ms matches None answer
           Hfresh Hclock Hgate Hall Hread Hput).
Qed.

(** How [catch] runs: the handler runs where the program is rejected. *)
Lemma run_catch {A : Type} (p : prog A) (handler : thrown -> prog A) (w : W) :
  RUN (catch p handler) w =
  match RUN p w with
  | (trace, Fulfilled a, w1) => (trace, Fulfilled a, w1)
  | (trace, Rejected e, w1) =>
    let '(trace', outcome, w2) := RUN (handler e) w1 in
    (trace ++ trace', outcome, w2)
  end.
Proof.
  revert w. induction p as [x|e|l what k IH|k IH|X r k IH]; intros w; cbn [catch run].
  - reflexivity.
  - destruct (RUN (handler e) w) as [[trace outcome] w2]. reflexivity.
  - rewrite IH. destruct (RUN k w) as [[trace [x|e]] w1]; [reflexivity|].
    destruct (RUN (handler e) w1) as [[trace' outcome] w2]. reflexivity.
  - destruct (clock w) as [ms w0]. rewrite IH.
    destruct (RUN (k (ValidDate ms)) w0) as [[trace [x|e]] w1]; [reflexivity|].
    destruct (RUN (handler e) w1) as [[trace' outcome] w2]. reflexivity.
  - destruct (respond X r w) as [answer w0]. rewrite IH.
    destruct (RUN (k answer) w0) as [[trace [x|e]] w1]; [reflexivity|].
    destruct (RUN (handler e) w1) as [[trace' outcome] w2]. reflexivity.
Qed.

(** X16: the program as started never rejects.  It runs as [main]
    does; when [main] is rejected the reason is printed on the error
    stream as the last event, and in both cases the top-level promise
    is fulfilled. *)
Theorem entry_point_never_rejects (env : gmap string string) (w : W) :
  RUN (entry_point Date_parse Number_toString env) w =
  match RUN (main Date_parse Number_toString env) w with
  | (trace, Fulfilled _, w1) => (trace, Fulfilled tt, w1)
  | (trace, Rejected e, w1) => (trace ++ [Printed error (Caught e)], Fulfilled tt, w1)
  end
  /\ snd (fst (RUN (entry_point Date_parse Number_toString env) w)) = Fulfilled tt.
Proof.
  unfold entry_point. rewrite run_catch.
  destruct (RUN (main Date_parse Number_toString env) w) as [[trace [[]|e]] w1];
    split; reflexivity.
Qed.

(** X17: [main] reads two variables of the environment and nothing
    else: environments that agree on [AIRTABLE_API_KEY] and
    [GITHUB_API_TOKEN] give the same program. *)
Theorem main_reads_two_variables (env env' : gmap string string) :
  env !! "AIRTABLE_API_KEY" = env' !! "AIRTABLE_API_KEY" ->
  env !! "GITHUB_API_TOKEN" = env' !! "GITHUB_API_TOKEN" ->
  main Date_parse Number_toString env = main Date_parse Number_toString env'
  /\ RUN (entry_point Date_parse Number_toString env) =
     RUN (entry_point Date_parse Number_toString env').
Proof.
  intros HA HG.
  assert (main Date_parse Number_toString env = main Date_parse Number_toString env') as Hmain.
  { unfold main, envOrDie. rewrite HA, HG. reflexivity. }
  split; [exact Hmain|]. unfold entry_point. rewrite Hmain. reflexivity.
Qed.

End Runs.

(** ** The further properties on the sample worlds *)

Lemma toBase64_keeps_the_bytes_witness :
  Buffer_from "light work" = Buffer_from "light work".
Proof. apply (proj2 toBase64_keeps_the_bytes "light work" "light work"). reflexivity. Defined.

Lemma gate_whole_seconds_witness :
  num_lt (seconds_between (ValidDate 1588327210000) (ValidDate 1588327200000))
         (Fin (inject_Z 300)) = true
  <-> 1588327210000 - 1588327200000 < 1000 * 300.
Proof. apply (gate_whole_seconds 1588327210000 1588327200000 300); lia. Defined.


Lemma gate_monotone_witness :
  num_lt (seconds_between (ValidDate 1588327205000) (ValidDate 1588327200000)) (Fin 300)
  = true.
Proof.
  apply (gate_monotone 1588327210000 1588327205000 (ValidDate 1588327200000) (Fin 300)).
  - reflexivity.
  - lia.
Defined.

Lemma freshness_rejection_propagates_witness :
  sample_run airtable_down (sample_export None) =
  ([Called (SelectAll (airtable_table sample_airtable) (Some (latest_query "Last Update")))],
   Rejected timed_out, 1%nat).
Proof.
  exact (freshness_rejection_propagates
           (scripted_respond airtable_down) (scripted_clock airtable_down)
           sample_Date_parse sample_Number_toString sample_airtable sample_github None
           0%nat 1%nat timed_out eq_refl).
Defined.

Lemma fetch_rejection_propagates_witness :
  sample_run fetch_fails (sample_export None) =
  ([Called (SelectAll (airtable_table sample_airtable) (Some (latest_query "Last Update")));
    ClockRead (ValidDate 1588327501000);
    Printed info (Text "Last update time over update treshold, will try to export data.");
    Called (SelectAll (airtable_table sample_airtable) None)],
   Rejected timed_out, 2%nat)
  /\ gets (fst (fst (sample_run fetch_fails (sample_export None)))) = []
  /\ writes (fst (fst (sample_run fetch_fails (sample_export None)))) = [].
Proof.
  exact (fetch_rejection_propagates
           (scripted_respond fetch_fails) (scripted_clock fetch_fails)
           sample_Date_parse sample_Number_toString sample_airtable sample_github None
           0%nat 1%nat 1%nat 2%nat
           [Called (SelectAll (airtable_table sample_airtable) (Some (latest_query "Last Update")))]
           (ValidDate 1588327200000) 1588327501000 timed_out
           eq_refl eq_refl eq_refl eq_refl).
Defined.

Lemma freshness_returns_parsed_stamp_witness :
  run (scripted_respond (edited_ago 10)) (scripted_clock (edited_ago 10))
      (getLastAirtableModificationTime sample_Date_parse (airtable_table sample_airtable)
         "Last Update") 0%nat
  = ([Called (SelectAll (airtable_table sample_airtable)
                (Some {| select_fields := ["Last Update"];
                         select_sort := [("Last Update", desc)];
                         select_maxRecords := 1 |}))],
     Fulfilled (Some (ValidDate 1588327200000)), 1%nat).
Proof.
  apply (freshness_returns_parsed_stamp
           (scripted_respond (edited_ago 10)) (scripted_clock (edited_ago 10))
           sample_Date_parse (airtable_table sample_airtable) "Last Update"
           "2020-05-01T10:00:00.000Z" 0%nat 1%nat
           [stamped "2020-05-01T10:00:00.000Z"] (stamped "2020-05-01T10:00:00.000Z")
           1588327200000); try reflexivity.
  vm_compute. discriminate.
Defined.

Lemma missing_stamp_exports_witness :
  run (scripted_respond stamp_missing) (scripted_clock stamp_missing)
      (getLastAirtableModificationTime sample_Date_parse (airtable_table sample_airtable)
         "Last Update") 0%nat
  = ([Called (SelectAll (airtable_table sample_airtable) (Some (latest_query "Last Update")))],
     Fulfilled (Some InvalidDate), 1%nat)
  /\ exists (rest : list event) (outcome : settled unit) (served : nat),
       sample_run stamp_missing (sample_export None) =
       (Called (SelectAll (airtable_table sample_airtable) (Some (latest_query "Last Update")))
        :: ClockRead (ValidDate 1588327200000)
        :: Printed info
             (Text "Last update time over update treshold, will try to export data.")
        :: Called (SelectAll (airtable_table sample_airtable) None)
        :: rest, outcome, served).
Proof.
  exact (missing_stamp_exports
           (scripted_respond stamp_missing) (scripted_clock stamp_missing)
           sample_Date_parse sample_Number_toString sample_airtable sample_github None
           0%nat 1%nat 1%nat [blank_record] blank_record 1588327200000
           eq_refl eq_refl eq_refl eq_refl).
Defined.

Lemma hash_read_result_witness :
  run (scripted_respond null_body) (scripted_clock null_body)
      (getTargetFileSHA sample_github) 0%nat
  = ([Called (AxiosGet "https://api.github.com/repos/zoul/airtable-export/contents/data.json"
                None)],
     Rejected (ThrownError "TypeError" "Cannot read properties of null (reading 'sha')"),
     1%nat).
Proof.
  exact (hash_read_result
           (scripted_respond null_body) (scripted_clock null_body)
           sample_github 0%nat 1%nat (Fulfilled {| status := 200; data := JNull |}) eq_refl).
Defined.

Lemma write_without_hash_witness :
  sample_run path_is_directory (sample_export None) =
  ([Called (SelectAll (airtable_table sample_airtable) (Some (latest_query "Last Update")));
    ClockRead (ValidDate 1588327501000);
    Printed info (Text "Last update time over update treshold, will try to export data.");
    Called (SelectAll (airtable_table sample_airtable) None);
    Called (AxiosGet "https://api.github.com/repos/zoul/airtable-export/contents/data.json"
              None);
    Called (CreateOrUpdateFileContents "ghp_TOKEN" {|
              FileContents.owner := "zoul";
              FileContents.repo := "airtable-export";
              FileContents.path := "data.json";
              FileContents.message := "Update data";
              FileContents.sha := None;
              FileContents.content :=
                "WwogIHsKICAgICJBIjogMQogIH0sCiAgewogICAgIkIiOiAyCiAgfQpd";
            |})],
   Rejected (ThrownError "HttpError" "Invalid request"), 4%nat).
Proof.
  apply (write_without_hash
           (scripted_respond path_is_directory) (scripted_clock path_is_directory)
           sample_Date_parse sample_Number_toString sample_airtable sample_github None
           0%nat 1%nat 1%nat 2%nat 3%nat 4%nat
           [Called (SelectAll (airtable_table sample_airtable) (Some (latest_query "Last Update")))]
           (ValidDate 1588327200000) 1588327501000 [record_A; record_B] listing_response
           (Rejected (ThrownError "HttpError" "Invalid request")));
    try reflexivity.
  - discriminate.
  - discriminate.
Defined.

Lemma main_reads_two_variables_witness :
  main sample_Date_parse sample_Number_toString full_env
  = main sample_Date_parse sample_Number_toString noisy_env
  /\ run (scripted_respond (edited_ago 301)) (scripted_clock (edited_ago 301))
         (entry_point sample_Date_parse sample_Number_toString full_env)
     = run (scripted_respond (edited_ago 301)) (scripted_clock (edited_ago 301))
           (entry_point sample_Date_parse sample_Number_toString noisy_env).
Proof.
  apply (main_reads_two_variables
           (scripted_respond (edited_ago 301)) (scripted_clock (edited_ago 301))
           sample_Date_parse sample_Number_toString full_env noisy_env).
  - vm_compute. reflexivity.
  - vm_compute. reflexivity.
Defined.
